(** * anobbsclient: the request core of the A-Island (AnoBBS) client

    A shallow embedding of [anobbsclient/client.py] and
    [anobbsclient/objects.py], and the properties of the login gatekeeper,
    the retrieval and reply workflows and the Post/Thread data model.

    Conventions.
    - A Python [int] is a [Z]; a Python [str] is a [string] holding its
      UTF-8 encoding (equality of two [str] is equality of the encodings).
    - A Python call that may raise returns a [result]; the exception is the
      [Err] payload.
    - The network is a call log plus a remote end that answers each call
      from the calls made before it; a workflow maps the log to its outcome
      and the log afterwards. *)

From Stdlib Require Import ZArith NArith String Ascii List Bool Lia DecimalString.
From stdpp Require Import base list.
Import ListNotations.
Open Scope string_scope.
Open Scope Z_scope.

(** * Part I: the program *)

(** ** Exceptions and results *)

(** [anobbsclient.exceptions] and the Python built-ins the two modules can
    raise.  [TransientError] stands for what the transport raises (the
    [requests]/[urllib3] errors, [raise_for_status]'s HTTP error, an
    undecodable body).  [RetryExhausted] and [NothingAttempted] are the
    executor's own failures. *)
Inductive exn : Type :=
| ShouldNotReachException
| RequiresLoginException
| NoPermissionException
| ResourceNotExistsException
| GatekeptException (context : string)
                    (current_page_number gatekeeper_post_id : option Z)
| UnknownResponseException (response_body : string)
| ReplyException (raw_error : string) (raw_detail : option string)
| TransientError (what : string)
| KeyError (key : string)
| TypeError
| RetryExhausted (operation : string) (attempts : Z) (last : exn)
| NothingAttempted (operation : string) (max_attempts : Z).

Inductive result (A : Type) : Type :=
| Ok (a : A)
| Err (e : exn).
Arguments Ok {A} a.
Arguments Err {A} e.

Definition rbind {A B} (r : result A) (k : A -> result B) : result B :=
  match r with
  | Ok a => k a
  | Err e => Err e
  end.

Declare Scope result_scope.
Delimit Scope result_scope with result.
Notation "'try!' x := r 'in' k" := (rbind r (fun x => k))
  (at level 10, x name, r at level 100, k at level 200) : result_scope.
Open Scope result_scope.

Definition is_ok {A} (r : result A) : bool :=
  match r with Ok _ => true | Err _ => false end.

(** [str(n)] of an [int], as an f-string prints it. *)
Definition str_of_int (n : Z) : string := NilZero.string_of_int (Z.to_int n).

(** ** Decoded JSON and raw records ([objects.py]) *)

(** What [json] decoding yields, the [Any] of [OrderedDict[str, Any]]:
    [None], [bool], [int], [float] (kept as its literal), [str], [list] and
    [OrderedDict]. *)
#[warnings="-register-all"]
Inductive json : Type :=
| JNone
| JBool (b : bool)
| JInt (z : Z)
| JFloat (literal : string)
| JStr (s : string)
| JList (items : list json)
| JDict (fields : list (string * json)).

(** An [OrderedDict[str, Any]]: the fields in insertion order. *)
Definition OrderedDict : Type := list (string * json).

Module Dict.

(** [key in d] *)
Fixpoint contains {V} (key : string) (d : list (string * V)) : bool :=
  match d with
  | [] => false
  | (k, _) :: rest => String.eqb k key || contains key rest
  end.

Fixpoint lookup {V} (key : string) (d : list (string * V)) : option V :=
  match d with
  | [] => None
  | (k, v) :: rest => if String.eqb k key then Some v else lookup key rest
  end.

(** [d[key]], raising [KeyError] *)
Definition getitem {V} (d : list (string * V)) (key : string) : result V :=
  match lookup key d with
  | Some v => Ok v
  | None => Err (KeyError key)
  end.

(** [d[key] = v]: an existing key keeps its position, a new one goes last *)
Fixpoint setitem {V} (d : list (string * V)) (key : string) (v : V)
    : list (string * V) :=
  match d with
  | [] => [(key, v)]
  | (k, w) :: rest =>
      if String.eqb k key then (k, v) :: rest
      else (k, w) :: setitem rest key v
  end.

(** [d.pop(key, None)], the dictionary afterwards *)
Fixpoint pop {V} (d : list (string * V)) (key : string)
    : list (string * V) :=
  match d with
  | [] => []
  | (k, w) :: rest =>
      if String.eqb k key then rest else (k, w) :: pop rest key
  end.

Definition keys {V} (d : list (string * V)) : list string := map fst d.

End Dict.

(** ** Iterating a decoded value *)

Module Iter.

(** A UTF-8 continuation byte, [10xxxxxx]. *)
Definition is_continuation (c : ascii) : bool :=
  let n := N_of_ascii c in (128 <=? n)%N && (n <? 192)%N.

(** The continuation bytes [s] starts with, and the characters after. *)
Fixpoint split_chars (s : string) : string * list string :=
  match s with
  | EmptyString => (EmptyString, [])
  | String c rest =>
      let '(pending, chars) := split_chars rest in
      if is_continuation c then (String c pending, chars)
      else (EmptyString, String c pending :: chars)
  end.

(** The characters of a [str], each as a one-character [str]. *)
Definition chars (s : string) : list string :=
  let '(pending, cs) := split_chars s in
  match pending with
  | EmptyString => cs
  | _ => pending :: cs
  end.

(** [iter(v)]: a list yields its items, a dictionary its keys, a string its
    characters; the other values are not iterable. *)
Definition iter (v : json) : result (list json) :=
  match v with
  | JList items => Ok items
  | JDict fields => Ok (map JStr (Dict.keys fields))
  | JStr s => Ok (map JStr (chars s))
  | JNone | JBool _ | JInt _ | JFloat _ => Err TypeError
  end.

End Iter.

(** ** Post and Thread ([objects.py]) *)

Module Objects.

(** [class Post]: a view over its raw record. *)
Record Post : Type := mkPost { _raw : OrderedDict }.

(** [Post(data)] for a value that was not typed: [Post.__init__] declares
    [data: OrderedDict[str, Any]].  Python stores anything, and every
    projection of a non-record then raises [TypeError] at its subscript;
    the embedding raises it here. *)
Definition Post_of (data : json) : result Post :=
  match data with
  | JDict d => Ok (mkPost d)
  | _ => Err TypeError
  end.

(** [Post.raw_copy] *)
Definition raw_copy (p : Post) : OrderedDict := _raw p.

(** [content == none_mark] for a [str] mark: only an equal [str] is equal. *)
Definition eq_str (content : json) (mark : string) : bool :=
  match content with
  | JStr s => String.eqb s mark
  | _ => false
  end.

(** [_none_if(content, none_mark)]; Python's [None] is [JNone]. *)
Definition _none_if (content : json) (none_mark : string) : json :=
  if eq_str content none_mark then JNone else content.

Definition id (p : Post) : result json := Dict.getitem (_raw p) "id".

Definition attachment_base (p : Post) : result json :=
  try! v := Dict.getitem (_raw p) "img" in Ok (_none_if v "").

Definition attachment_extension (p : Post) : result json :=
  try! v := Dict.getitem (_raw p) "ext" in Ok (_none_if v "").

Definition created_at_raw_text (p : Post) : result json :=
  Dict.getitem (_raw p) "now".

Definition user_id (p : Post) : result json := Dict.getitem (_raw p) "userid".

Definition name (p : Post) : result json :=
  try! v := Dict.getitem (_raw p) "name" in Ok (_none_if v "无名氏").

Definition email (p : Post) : result json :=
  try! v := Dict.getitem (_raw p) "email" in Ok (_none_if v "").

Definition title (p : Post) : result json :=
  try! v := Dict.getitem (_raw p) "title" in Ok (_none_if v "无标题").

Definition content (p : Post) : result json :=
  Dict.getitem (_raw p) "content".

Definition marked_sage (p : Post) : result bool :=
  try! v := Dict.getitem (_raw p) "sage" in Ok (negb (eq_str v "0")).

Definition marked_admin (p : Post) : result bool :=
  try! v := Dict.getitem (_raw p) "admin" in Ok (negb (eq_str v "0")).

(** *** [json.dumps] *)

(** A value stored in the dictionary handed to [json.dumps]: a decoded
    value, or a [map] object. *)
Inductive dump_value : Type :=
| Plain (v : json)
| MapObject.

(** The text [json.dumps(doc, indent=.., ensure_ascii=..)] renders, named
    by what it renders. *)
Inductive json_text : Type :=
| Rendered (indent : Z) (ensure_ascii : bool) (doc : json).

Definition plain (d : OrderedDict) : list (string * dump_value) :=
  map (fun kv => (fst kv, Plain (snd kv))) d.

(** The encoder walks the fields in order; a [map] object has no JSON
    form: [TypeError: Object of type map is not JSON serializable]. *)
Fixpoint encodable (data : list (string * dump_value)) : result OrderedDict :=
  match data with
  | [] => Ok []
  | (k, Plain v) :: rest =>
      try! fields := encodable rest in Ok ((k, v) :: fields)
  | (_, MapObject) :: _ => Err TypeError
  end.

Definition dumps (data : list (string * dump_value)) (indent : Z)
    (ensure_ascii : bool) : result json_text :=
  try! fields := encodable data in
  Ok (Rendered indent ensure_ascii (JDict fields)).

(** [Post.to_json] *)
Definition to_json (p : Post) : result json_text :=
  dumps (plain (_raw p)) 2 false.

(** *** Thread *)

(** The three things [Thread.__replies] can hold: [None]; the lazy
    [map(lambda post: Post(post), source)] built by [__init__], not yet
    consumed; a list put there by the setter. *)
Inductive replies_state : Type :=
| NoReplies
| MapOfPosts (source : json)
| ListOfPosts (posts : list Post).

(** [class Thread(Post)]: the inherited [Post] part and [__replies]. *)
Record Thread : Type := mkThread {
  post : Post;
  __replies : replies_state
}.

(** [Thread.__init__].  [map] takes [iter] of its argument at once, so a
    reply collection that is not iterable raises here.  The assignment
    [self._raw["replys"] = None] writes into the caller's dictionary, which
    is the object the Thread keeps: [post] below holds it as it is
    afterwards. *)
Definition Thread_init (data : OrderedDict) : result Thread :=
  if Dict.contains "replys" data then
    try! source := Dict.getitem data "replys" in
    try! items := Iter.iter source in
    Ok {| post := mkPost (Dict.setitem data "replys" JNone);
          __replies := MapOfPosts source |}
  else
    Ok {| post := mkPost data; __replies := NoReplies |}.

(** The [replies] property and its setter. *)
Definition replies (t : Thread) : replies_state := __replies t.

Definition set_replies (t : Thread) (posts : list Post) : Thread :=
  {| post := post t; __replies := ListOfPosts posts |}.

(** [Thread.total_reply_count]: [int(self._raw["replyCount"])].  [int] is
    Python's built-in conversion, taken as given. *)
Definition total_reply_count (int : json -> result Z) (t : Thread)
    : result Z :=
  try! v := Dict.getitem (_raw (post t)) "replyCount" in int v.

(** [Thread.to_json].  [self.__replies != None] holds for a [map] object
    and for a list; [map(lambda post: post.body, ..)] is stored unevaluated. *)
Definition Thread_to_json (t : Thread) : result json_text :=
  let data := plain (raw_copy (post t)) in
  let data :=
    match __replies t with
    | NoReplies => Dict.pop data "replys"
    | MapOfPosts _ | ListOfPosts _ => Dict.setitem data "replys" MapObject
    end in
  dumps data 2 false.

(** Modelled from the spec: [ThreadPage] and [BoardThread], which
    [client.py] imports from [objects.py] and this [objects.py] does not
    define.  The spec has both fetches decode "into a Thread"; they are
    [Thread] applied to a payload, which has to be a record. *)
Definition ThreadPage (data : json) : result Thread :=
  match data with
  | JDict d => Thread_init d
  | _ => Err TypeError
  end.

Definition BoardThread (data : json) : result Thread := ThreadPage data.

(** [list(filter(keep, map(make, items)))]: both are lazy, so each item is
    made and tested before the next one is looked at. *)
Fixpoint filter_mapped {A B} (make : A -> result B) (keep : B -> result bool)
    (items : list A) : result (list B) :=
  match items with
  | [] => Ok []
  | x :: rest =>
      try! y := make x in
      try! k := keep y in
      try! kept := filter_mapped make keep rest in
      Ok (if k then y :: kept else kept)
  end.

(** [list(filter(keep, replies))] for what [replies] can hold. *)
Definition list_filter (keep : Post -> result bool) (r : replies_state)
    : result (list Post) :=
  match r with
  | NoReplies => Err TypeError
  | MapOfPosts source =>
      try! items := Iter.iter source in filter_mapped Post_of keep items
  | ListOfPosts posts => filter_mapped Ok keep posts
  end.

(** [list(map(make, items))] *)
Fixpoint list_map {A B} (make : A -> result B) (items : list A)
    : result (list B) :=
  match items with
  | [] => Ok []
  | x :: rest =>
      try! y := make x in
      try! ys := list_map make rest in
      Ok (y :: ys)
  end.

End Objects.

(** ** The network and the request executor *)

Module Net.

(** [BandwidthUsage]: bytes sent and bytes received. *)
Record BandwidthUsage : Type := mkUsage { uploaded : N; downloaded : N }.

Definition no_usage : BandwidthUsage := mkUsage 0 0.

Definition add_usage (a b : BandwidthUsage) : BandwidthUsage :=
  mkUsage (uploaded a + uploaded b) (downloaded a + downloaded b).

(** One round trip, as it appears on the wire. *)
Inductive call : Type :=
| GetJson (path : string) (needs_login : bool) (params : list (string * Z))
| PostForm (url : string) (files : list (string * string)).

(** The calls made so far, oldest first. *)
Definition log : Type := list call.

(** What one attempt of a request function comes to, with the bytes it
    moved: a value, or an exception. *)
Inductive attempt (A : Type) : Type :=
| Returned (a : A) (usage : BandwidthUsage)
| Raised (e : exn) (usage : BandwidthUsage).
Arguments Returned {A} a usage.
Arguments Raised {A} e usage.

(** The body and status of an HTTP response. *)
Record response : Type := mkResponse { status_code : Z; text : string }.

(** [Response.raise_for_status] of [requests]: a 4xx or 5xx status raises. *)
Definition raise_for_status (resp : response) : result unit :=
  if (400 <=? status_code resp) && (status_code resp <? 600)
  then Err (TransientError "HTTPError") else Ok tt.

End Net.

(** What [Client] inherits from [BaseClient] ([baseclient.py] is not part
    of these sources): the two fields [reply_thread] reads, the option
    accessors, and the remote end the transport talks to.  The remote end
    answers a call from the options in force and the calls made before. *)
Record BaseClient (RequestOptions : Type) : Type := mkBaseClient {
  host : string;
  appid : option string;
  get_login_policy : RequestOptions -> string;
  has_cookie : RequestOptions -> bool;
  get_max_attempts : RequestOptions -> Z;
  _get_option_value : RequestOptions -> string -> Z -> Z;
  _make_session : RequestOptions -> bool -> result unit;
  json_endpoint : RequestOptions -> Net.log -> Net.call -> Net.attempt json;
  form_endpoint : RequestOptions -> Net.log -> Net.call -> result Net.response
}.
Arguments host {RequestOptions} _.
Arguments appid {RequestOptions} _.
Arguments get_login_policy {RequestOptions} _ _.
Arguments has_cookie {RequestOptions} _ _.
Arguments get_max_attempts {RequestOptions} _ _.
Arguments _get_option_value {RequestOptions} _ _ _ _.
Arguments _make_session {RequestOptions} _ _ _.
Arguments json_endpoint {RequestOptions} _ _ _ _.
Arguments form_endpoint {RequestOptions} _ _ _ _.

Module Executor.
Import Net.

(** Modelled from the spec: which failures the executor retries
    ([requestutils.py] is not part of these sources).  Section 4.2:
    retryable are the transient transport and server errors; the
    authentication, permission, not-found and domain errors are fatal. *)
Definition is_retryable (e : exn) : bool :=
  match e with
  | TransientError _ => true
  | _ => false
  end.

(** Modelled from the spec: the attempt loop of [try_request].  Section
    4.2: the request function is invoked up to [max_attempts] times, one
    attempt completing before the next; a fatal failure propagates at once;
    when the last allowed attempt fails with a retryable failure, that
    failure propagates annotated with the operation name and the attempt
    count; the usage of every attempt, failed ones included, is summed into
    the total returned with the result.  [remaining] counts the attempts
    still allowed and [used] is the usage so far.  With no attempt allowed
    nothing is called and there is no failure to propagate:
    [NothingAttempted]. *)
Fixpoint attempts {A} (fn : log -> attempt A * log) (description : string)
    (max_attempts : Z) (remaining : nat) (used : BandwidthUsage)
    (calls : log) : result (A * BandwidthUsage) * log :=
  match remaining with
  | O => (Err (NothingAttempted description max_attempts), calls)
  | S rest =>
      let '(outcome, calls') := fn calls in
      match outcome with
      | Returned a usage => (Ok (a, add_usage used usage), calls')
      | Raised e usage =>
          if is_retryable e then
            match rest with
            | O => (Err (RetryExhausted description max_attempts e), calls')
            | S _ =>
                attempts fn description max_attempts rest
                  (add_usage used usage) calls'
            end
          else (Err e, calls')
      end
  end.

(** Modelled from the spec: [try_request(fn, description, max_attempts)]. *)
Definition try_request {A} (fn : log -> attempt A * log)
    (description : string) (max_attempts : Z) (calls : log)
    : result (A * BandwidthUsage) * log :=
  attempts fn description max_attempts (Z.to_nat max_attempts) no_usage calls.

End Executor.

(** ** The client ([client.py]) *)

Module Client.
Import Net Objects.

Section Client.
Context {RequestOptions : Type} (self : BaseClient RequestOptions).

(** Modelled from the spec: [BaseClient._get_json], one round trip of the
    read endpoint ([baseclient.py] is not part of these sources).  The call
    is logged and the remote end answers it. *)
Definition _get_json (path : string) (options : RequestOptions)
    (needs_login : bool) (params : list (string * Z)) (calls : log)
    : attempt json * log :=
  let c := GetJson path needs_login params in
  (json_endpoint self options calls c, (calls ++ [c])%list).

(** [Client.page_requires_login] *)
Definition page_requires_login (page gate_keeper : Z)
    (options : RequestOptions) : result bool :=
  let login_policy := get_login_policy self options in
  let has_cookie := has_cookie self options in
  if String.eqb login_policy "enforce" then Ok true
  else if String.eqb login_policy "when_has_cookie" then
    Ok (has_cookie || (page >? gate_keeper))
  else if String.eqb login_policy "always_no"
          || String.eqb login_policy "when_required" then
    Ok (page >? gate_keeper)
  else Err ShouldNotReachException.

Definition get_thread_gatekeeper_page_number (options : RequestOptions) : Z :=
  _get_option_value self options "thread_gatekeeper_page_number" 100.

Definition get_board_gatekeeper_page_number (options : RequestOptions) : Z :=
  _get_option_value self options "board_gatekeeper_page_number" 100.

(** [Client.thread_page_requires_login] *)
Definition thread_page_requires_login (page : Z) (options : RequestOptions)
    : result bool :=
  page_requires_login page (get_thread_gatekeeper_page_number options) options.

(** [Client.board_page_requires_login] *)
Definition board_page_requires_login (page : Z) (options : RequestOptions)
    : result bool :=
  let gk_pn := get_board_gatekeeper_page_number options in
  if page >? gk_pn then
    Err (GatekeptException "check_if_board_page_requires_login" None None)
  else page_requires_login page gk_pn options.

(** [request_fn] of [get_board_page]: one attempt. *)
Definition board_request_fn (board_id page : Z) (options : RequestOptions)
    (needs_login : bool) (calls : log) : attempt (list Thread) * log :=
  let '(outcome, calls') :=
    _get_json "/Api/showf" options needs_login
      [("id", board_id); ("page", page)] calls in
  match outcome with
  | Raised e usage => (Raised e usage, calls')
  | Returned threads usage =>
      match (try! items := Iter.iter threads in list_map BoardThread items)
      with
      | Ok board => (Returned board usage, calls')
      | Err e => (Raised e usage, calls')
      end
  end.

(** [Client.get_board_page] *)
Definition get_board_page (board_id page : Z) (options : RequestOptions)
    (calls : log) : result (list Thread * BandwidthUsage) * log :=
  match board_page_requires_login page options with
  | Err e => (Err e, calls)
  | Ok needs_login =>
      if needs_login && negb (has_cookie self options) then
        (Err RequiresLoginException, calls)
      else
        Executor.try_request
          (board_request_fn board_id page options needs_login)
          ("获取版块 " ++ str_of_int board_id ++ " 第 "
             ++ str_of_int page ++ " 页")
          (get_max_attempts self options) calls
  end.

(** [request_fn] of [get_thread_page]: one attempt. *)
Definition thread_request_fn (id page : Z) (options : RequestOptions)
    (needs_login : bool) (calls : log) : attempt Thread * log :=
  let '(outcome, calls') :=
    _get_json ("/Api/thread/id/" ++ str_of_int id) options needs_login
      [("page", page)] calls in
  match outcome with
  | Raised e usage => (Raised e usage, calls')
  | Returned thread_page_json usage =>
      if eq_str thread_page_json "该主题不存在" then
        (Raised ResourceNotExistsException usage, calls')
      else
        match ThreadPage thread_page_json with
        | Ok thread_page => (Returned thread_page usage, calls')
        | Err e => (Raised e usage, calls')
        end
  end.

(** [lambda post: post.user_id != "芦苇"] *)
Definition not_luwei (post : Post) : result bool :=
  try! uid := user_id post in Ok (negb (eq_str uid "芦苇")).

(** The [if for_analysis:] step of [get_thread_page]. *)
Definition analysis_step (for_analysis : bool) (thread_page : Thread)
    : result Thread :=
  if for_analysis then
    try! kept := list_filter not_luwei (replies thread_page) in
    Ok (set_replies thread_page kept)
  else Ok thread_page.

(** [Client.get_thread_page] *)
Definition get_thread_page (id page : Z) (options : RequestOptions)
    (for_analysis : bool) (calls : log)
    : result (Thread * BandwidthUsage) * log :=
  match thread_page_requires_login page options with
  | Err e => (Err e, calls)
  | Ok needs_login =>
      if needs_login && negb (has_cookie self options) then
        (Err RequiresLoginException, calls)
      else
        let '(fetched, calls') :=
          Executor.try_request
            (thread_request_fn id page options needs_login)
            ("获取串 " ++ str_of_int id ++ " 第 " ++ str_of_int page ++ " 页")
            (get_max_attempts self options) calls in
        match fetched with
        | Err e => (Err e, calls')
        | Ok (thread_page, bandwidth_usage) =>
            match analysis_step for_analysis thread_page with
            | Err e => (Err e, calls')
            | Ok thread_page => (Ok (thread_page, bandwidth_usage), calls')
            end
        end
  end.

End Client.
End Client.

(** ** The parsed reply document *)

Module Html.

(** The element tree [BeautifulSoup] builds: strings, and tags with their
    name, the values of their [class] attribute, and their contents. *)
#[warnings="-register-all"]
Inductive node : Type :=
| Text (s : string)
| Tag (name : string) (classes : list string) (children : list node).

(** A tag called [name] with [cls] among its classes. *)
Definition is_tag (name cls : string) (n : node) : bool :=
  match n with
  | Text _ => false
  | Tag nm classes _ =>
      String.eqb nm name && existsb (String.eqb cls) classes
  end.

(** [n] and what is below it, in document order, keeping what matches. *)
Fixpoint matching (name cls : string) (n : node) : list node :=
  ((if is_tag name cls n then [n] else []) ++
   match n with
   | Text _ => []
   | Tag _ _ children => flat_map (matching name cls) children
   end)%list.

(** [tag.find_all(name, attrs={'class': cls})]: below [tag] only. *)
Definition find_all (name cls : string) (tag : node) : list node :=
  match tag with
  | Text _ => []
  | Tag _ _ children => flat_map (matching name cls) children
  end.

(** [tag.find(name, attrs={'class': cls})]: the first one, or [None]. *)
Definition find (name cls : string) (tag : node) : option node :=
  match find_all name cls tag with
  | [] => None
  | first :: _ => Some first
  end.

(** [tag.text]: the strings below [tag], joined. *)
Fixpoint text (n : node) : string :=
  match n with
  | Text s => s
  | Tag _ _ children =>
      (fix join (l : list node) : string :=
         match l with
         | [] => ""
         | c :: rest => text c ++ join rest
         end) children
  end.

End Html.

(** ** Replying ([client.py], [reply_thread]) *)

Module Reply.
Import Net Html.

Section Reply.
Context {RequestOptions : Type} (self : BaseClient RequestOptions).

(** [BeautifulSoup(resp_body, features='html.parser')], the document root. *)
Variable BeautifulSoup : string -> node.

(** The lines of [reply_thread] after the response is in: [resp_text] is
    [resp.text] and [doc] the parsed document. *)
Definition interpret (resp_text : string) (doc : node) : result unit :=
  match find "div" "system-message" doc with
  | None => Err (UnknownResponseException resp_text)
  | Some sys_msg_div =>
      match find_all "p" "success" sys_msg_div with
      | _ :: _ => Ok tt
      | [] =>
          match find_all "p" "error" sys_msg_div with
          | [] => Err (UnknownResponseException resp_text)
          | error_div :: _ =>
              let raw_error := text error_div in
              let raw_detail :=
                match find_all "p" "detail" sys_msg_div with
                | [] => None
                | detail_div :: _ =>
                    if String.eqb (text detail_div) "" then None
                    else Some (text detail_div)
                end in
              Err (ReplyException raw_error raw_detail)
          end
      end
  end.

Definition or_empty (s : option string) : string :=
  match s with
  | Some v => v
  | None => ""
  end.

(** The form [reply_thread] posts, in field order. *)
Definition reply_form (content : string) (to_thread_id : Z)
    (name email title : option string) : list (string * string) :=
  ((match appid self with
    | Some a => [("appid", a)]
    | None => []
    end) ++
   [("content", content);
    ("name", or_empty name);
    ("email", or_empty email);
    ("title", or_empty title);
    ("resto", str_of_int to_thread_id)])%list.

Definition reply_call (content : string) (to_thread_id : Z)
    (name email title : option string) : call :=
  PostForm ("https://" ++ host self ++ "/Home/Forum/doReplyThread.html")
    (reply_form content to_thread_id name email title).

(** [Client.reply_thread].  It returns nothing on success. *)
Definition reply_thread (content : string) (to_thread_id : Z)
    (name email title : option string) (options : RequestOptions)
    (calls : log) : result unit * log :=
  match _make_session self options true with
  | Err e => (Err e, calls)
  | Ok _ =>
      let c := reply_call content to_thread_id name email title in
      let calls' := (calls ++ [c])%list in
      match form_endpoint self options calls c with
      | Err e => (Err e, calls')
      | Ok resp =>
          match raise_for_status resp with
          | Err e => (Err e, calls')
          | Ok _ =>
              (interpret (Net.text resp) (BeautifulSoup (Net.text resp)),
               calls')
          end
      end
  end.

(** The reply workflow as section 2 and 4.2 of the specification word it:
    the write call is one attempt of a request function handed to the
    executor, which retries it and sums the usage.  [usage_of] measures the
    bytes one attempt moved.  It is here to be compared with
    [reply_thread]. *)
Definition reply_request_fn
    (usage_of : call -> result response -> BandwidthUsage)
    (content : string) (to_thread_id : Z) (name email title : option string)
    (options : RequestOptions) (calls : log) : attempt unit * log :=
  let c := reply_call content to_thread_id name email title in
  let calls' := (calls ++ [c])%list in
  let answer := form_endpoint self options calls c in
  let usage := usage_of c answer in
  match answer with
  | Err e => (Raised e usage, calls')
  | Ok resp =>
      match raise_for_status resp with
      | Err e => (Raised e usage, calls')
      | Ok _ =>
          match interpret (Net.text resp) (BeautifulSoup (Net.text resp)) with
          | Ok _ => (Returned tt usage, calls')
          | Err e => (Raised e usage, calls')
          end
      end
  end.

Definition reply_thread_through_executor
    (usage_of : call -> result response -> BandwidthUsage)
    (content : string) (to_thread_id : Z) (name email title : option string)
    (options : RequestOptions) (calls : log)
    : result (unit * BandwidthUsage) * log :=
  match _make_session self options true with
  | Err e => (Err e, calls)
  | Ok _ =>
      Executor.try_request
        (reply_request_fn usage_of content to_thread_id name email title
           options)
        ("回应串 " ++ str_of_int to_thread_id)
        (get_max_attempts self options) calls
  end.

End Reply.
End Reply.

(** ** Vocabulary of the statements *)

Module Vocabulary.
Import Net Html Objects.

(** [below n tag]: [n] occurs somewhere below [tag]. *)
Inductive below : node -> node -> Prop :=
| below_child name classes children c :
    In c children -> below c (Tag name classes children)
| below_deeper name classes children c n :
    In c children -> below n c -> below n (Tag name classes children).

(** [tag] holds a marker: a [name] element of class [cls] below it. *)
Definition holds (name cls : string) (tag : node) : Prop :=
  exists n, below n tag /\ is_tag name cls n = true.

(** The four values of the [LoginPolicy] literal type. *)
Definition is_login_policy (p : string) : Prop :=
  p = "enforce" \/ p = "when_has_cookie" \/ p = "always_no"
  \/ p = "when_required".

(** [fn] can raise [e]: some attempt of it does. *)
Definition raises {A} (fn : log -> attempt A * log) (e : exn) : Prop :=
  exists calls usage, fst (fn calls) = Raised e usage.

(** [e] is the Gated failure. *)
Definition is_gated (e : exn) : bool :=
  match e with
  | GatekeptException _ _ _ => true
  | _ => false
  end.

(** A reply written by the reserved identity. *)
Definition by_luwei (p : Post) : bool :=
  match user_id p with
  | Ok uid => eq_str uid "芦苇"
  | Err _ => false
  end.

(** The reply workflow goes through the executor: on every input,
    [reply_thread] makes the calls the executor would make and succeeds
    exactly when the executor-run write succeeds. *)
Definition reply_runs_through_executor {RequestOptions : Type}
    (self : BaseClient RequestOptions) (BeautifulSoup : string -> node)
    (usage_of : call -> result response -> BandwidthUsage) : Prop :=
  forall content to_thread_id name email title options calls,
    snd (Reply.reply_thread self BeautifulSoup content to_thread_id
           name email title options calls)
    = snd (Reply.reply_thread_through_executor self BeautifulSoup usage_of
             content to_thread_id name email title options calls)
    /\ is_ok (fst (Reply.reply_thread self BeautifulSoup content to_thread_id
                     name email title options calls))
       = is_ok (fst (Reply.reply_thread_through_executor self BeautifulSoup
                       usage_of content to_thread_id name email title
                       options calls)).

(** The replies of the other authors, in their order. *)
Definition others (posts : list Post) : list Post :=
  List.filter (fun p => negb (by_luwei p)) posts.

(** [kept] is [posts] without the replies of the reserved identity: it is
    [posts] with some replies left out, the rest in their order; a reply is in
    it exactly when it is in [posts] and its author is not the reserved
    identity; and it leaves out nothing else, any selection of such replies
    of [posts] being a selection of [kept]. *)
Definition all_but_luwei (kept posts : list Post) : Prop :=
  sublist kept posts
  /\ (forall p, In p kept <-> In p posts /\ user_id p <> Ok (JStr "芦苇"))
  /\ (forall l, sublist l posts ->
                Forall (fun p => user_id p <> Ok (JStr "芦苇")) l ->
                sublist l kept).

End Vocabulary.

(** ** Sample clients and records *)

Module Sample.
Import Net Objects.

(** Request options with every value optional, as a [TypedDict] with
    [total=False] has them. *)
Record options : Type := mkOptions {
  login_policy : option string;
  user_cookie : bool;
  max_attempts : option Z;
  thread_gatekeeper_page_number : option Z;
  board_gatekeeper_page_number : option Z
}.

Definition defaults : options := mkOptions None false None None None.

(** The default options with a credential attached. *)
Definition with_cookie : options := mkOptions None true None None None.

Definition option_value (o : options) (key : string) (default : Z) : Z :=
  let found :=
    if String.eqb key "thread_gatekeeper_page_number"
    then thread_gatekeeper_page_number o
    else if String.eqb key "board_gatekeeper_page_number"
    then board_gatekeeper_page_number o
    else None in
  match found with
  | Some v => v
  | None => default
  end.

(** A client over a given remote end.  A session that needs login cannot
    be made without a credential. *)
Definition client
    (json_end : options -> log -> call -> attempt json)
    (form_end : options -> log -> call -> result response)
    : BaseClient options :=
  {| host := "adnmb3.com";
     appid := None;
     get_login_policy := fun o =>
       match login_policy o with Some p => p | None => "when_required" end;
     has_cookie := user_cookie;
     get_max_attempts := fun o =>
       match max_attempts o with Some n => n | None => 3 end;
     _get_option_value := option_value;
     _make_session := fun o needs_login =>
       if needs_login && negb (user_cookie o)
       then Err RequiresLoginException else Ok tt;
     json_endpoint := json_end;
     form_endpoint := form_end |}.

Definition post_1 : Post :=
  mkPost [("id", JInt 101); ("userid", JStr "AbCdEfG"); ("content", JStr "a")].
Definition post_2 : Post :=
  mkPost [("id", JInt 102); ("userid", JStr "芦苇"); ("content", JStr "b")].
Definition post_3 : Post :=
  mkPost [("id", JInt 103); ("userid", JStr "HiJkLmN"); ("content", JStr "c")].

Definition reply_collection : json :=
  JList [JDict (_raw post_1); JDict (_raw post_2); JDict (_raw post_3)].

Definition thread_record : OrderedDict :=
  [("id", JInt 100); ("img", JStr ""); ("ext", JStr "");
   ("userid", JStr "OpQrStU"); ("name", JStr "无名氏"); ("email", JStr "");
   ("title", JStr "无标题"); ("content", JStr "text");
   ("replys", reply_collection); ("replyCount", JStr "3")].

(** The Thread [Thread(thread_record)] is. *)
Definition thread : Thread :=
  {| post := mkPost (Dict.setitem thread_record "replys" JNone);
     __replies := MapOfPosts reply_collection |}.

Definition usage_per_call : BandwidthUsage := mkUsage 10 200.

(** A remote end that is down for the first two calls and then serves
    [thread_record]. *)
Definition flaky_json_end (o : options) (before : log) (c : call)
    : attempt json :=
  if (length before <? 2)%nat
  then Raised (TransientError "ConnectionError") usage_per_call
  else Returned (JDict thread_record) usage_per_call.

(** A request function over [flaky_json_end]: each attempt is one call. *)
Definition flaky_request_fn (calls : log) : attempt json * log :=
  let c := GetJson "/Api/thread/id/100" false [("page", 1)] in
  (flaky_json_end defaults calls c, (calls ++ [c])%list).

(** What a remote end that is up serves: a board listing of one thread
    to [/Api/showf], and [thread_record] to anything else. *)
Definition payload_for (c : call) : json :=
  match c with
  | GetJson path _ _ =>
      if String.eqb path "/Api/showf"
      then JList [JDict (Dict.pop thread_record "replys")]
      else JDict thread_record
  | PostForm _ _ => JNone
  end.

(** A remote end that always serves. *)
Definition steady_json_end (o : options) (before : log) (c : call)
    : attempt json :=
  Returned (payload_for c) usage_per_call.

Definition success_page : string :=
  "<div class='system-message'><h1>:)</h1><p class='success'>回复成功</p><p class='detail'></p></div>".

(** A write endpoint that is down for the first call and accepts the
    reply afterwards. *)
Definition flaky_form_end (o : options) (before : log) (c : call)
    : result response :=
  if (length before <? 1)%nat
  then Err (TransientError "ConnectionError")
  else Ok (mkResponse 200 success_page).

(** The bytes one write attempt moves, taken as fixed. *)
Definition post_usage (c : call) (answer : result response)
    : BandwidthUsage := usage_per_call.

Definition no_form_end (o : options) (before : log) (c : call)
    : result response := Err (TransientError "ConnectionError").

(** The four documents of the reply interpreter's fixtures, parsed. *)
Definition success_doc : Html.node :=
  Html.Tag "[document]" []
    [Html.Tag "div" ["system-message"]
       [Html.Tag "h1" [] [Html.Text ":)"];
        Html.Tag "p" ["success"] [Html.Text "回复成功"];
        Html.Tag "p" ["detail"] []]].

Definition error_doc : Html.node :=
  Html.Tag "[document]" []
    [Html.Tag "div" ["system-message"]
       [Html.Tag "h1" [] [Html.Text ":("];
        Html.Tag "p" ["error"] [Html.Text "没有选定回复的帖子"];
        Html.Tag "p" ["detail"] []]].

Definition bare_doc : Html.node :=
  Html.Tag "[document]" []
    [Html.Tag "div" ["system-message"]
       [Html.Tag "h1" [] [Html.Text ":|"]]].

Definition other_doc : Html.node :=
  Html.Tag "[document]" []
    [Html.Tag "html" [] [Html.Tag "body" [] [Html.Text "502 Bad Gateway"]]].

(** A parser that knows [success_page]. *)
Definition parse (body : string) : Html.node :=
  if String.eqb body success_page then success_doc else other_doc.

End Sample.

(** * Part II: properties *)

(** ** Dictionaries *)

Module DictFacts.
Import Dict.

Lemma contains_lookup {V} key (d : list (string * V)) :
  contains key d = true <-> exists v, lookup key d = Some v.
Proof.
  induction d as [|[k v] rest IH]; cbn.
  - split; [discriminate | intros [v Hv]; discriminate].
  - destruct (String.eqb k key); cbn; [split; eauto | exact IH].
Qed.

Lemma contains_false_lookup {V} key (d : list (string * V)) :
  contains key d = false <-> lookup key d = None.
Proof.
  induction d as [|[k v] rest IH]; cbn; [tauto|].
  destruct (String.eqb k key); cbn; [split; discriminate | exact IH].
Qed.

Lemma pop_absent {V} key (d : list (string * V)) :
  contains key d = false -> pop d key = d.
Proof.
  induction d as [|[k v] rest IH]; cbn; [reflexivity|].
  destruct (String.eqb k key); cbn; [discriminate|].
  intros H. now rewrite IH.
Qed.

Lemma keys_setitem_present {V} key (d : list (string * V)) v :
  contains key d = true -> keys (setitem d key v) = keys d.
Proof.
  induction d as [|[k w] rest IH]; cbn; [discriminate|].
  destruct (String.eqb k key); cbn; [reflexivity|].
  intros H. unfold keys in IH. now rewrite IH.
Qed.

Lemma lookup_setitem_same {V} key (d : list (string * V)) v :
  lookup key (setitem d key v) = Some v.
Proof.
  induction d as [|[k w] rest IH]; cbn.
  - now rewrite String.eqb_refl.
  - destruct (String.eqb k key) eqn:E; cbn; rewrite E; [reflexivity | exact IH].
Qed.

Lemma contains_setitem {V} key (d : list (string * V)) v :
  contains key (setitem d key v) = true.
Proof.
  apply contains_lookup. exists v. apply lookup_setitem_same.
Qed.

End DictFacts.

(** ** Post projections *)

Module PostFacts.
Import Objects.

Lemma eq_str_spec (v : json) (mark : string) :
  eq_str v mark = true <-> v = JStr mark.
Proof.
  destruct v; cbn; try (split; [discriminate | intros H; discriminate H]).
  rewrite String.eqb_eq. split; [now intros -> | now intros [= ->]].
Qed.

Lemma _none_if_mark (mark : string) : _none_if (JStr mark) mark = JNone.
Proof. unfold _none_if; cbn. now rewrite String.eqb_refl. Qed.

Lemma _none_if_other (v : json) (mark : string) :
  v <> JStr mark -> _none_if v mark = v.
Proof.
  intros Hv. unfold _none_if.
  destruct (eq_str v mark) eqn:E; [|reflexivity].
  apply eq_str_spec in E. contradiction.
Qed.

(** Reading [field] and mapping [sentinel] to [None]: the sentinel goes to
    [None], anything else comes back as it is. *)
Lemma read_with_sentinel (field sentinel : string) (raw : OrderedDict)
    (v : json) :
  Dict.lookup field raw = Some v ->
  (v = JStr sentinel ->
     (try! w := Dict.getitem raw field in Ok (_none_if w sentinel))
     = Ok JNone)
  /\ (v <> JStr sentinel ->
     (try! w := Dict.getitem raw field in Ok (_none_if w sentinel)) = Ok v).
Proof.
  intros Hv. unfold Dict.getitem. rewrite Hv. cbn. split.
  - intros ->. now rewrite _none_if_mark.
  - intros Hne. now rewrite _none_if_other.
Qed.

(** A missing field is a [KeyError], whatever the sentinel. *)
Lemma read_missing (field : string) (raw : OrderedDict) :
  Dict.lookup field raw = None ->
  Dict.getitem raw field = Err (KeyError field).
Proof. intros H. unfold Dict.getitem. now rewrite H. Qed.

End PostFacts.

(** C7.  For every Post and every raw value [v] of the field read: the
    attachment base and the attachment extension map the empty string to
    None, the name maps ["无名氏"] to None, the title maps ["无标题"] to None,
    and each of the four returns any other raw value unchanged. *)
Theorem C7_sentinel_projections (p : Objects.Post) (v : json) :
  (Dict.lookup "img" (Objects._raw p) = Some v ->
     (v = JStr "" -> Objects.attachment_base p = Ok JNone)
     /\ (v <> JStr "" -> Objects.attachment_base p = Ok v))
  /\ (Dict.lookup "ext" (Objects._raw p) = Some v ->
     (v = JStr "" -> Objects.attachment_extension p = Ok JNone)
     /\ (v <> JStr "" -> Objects.attachment_extension p = Ok v))
  /\ (Dict.lookup "name" (Objects._raw p) = Some v ->
     (v = JStr "无名氏" -> Objects.name p = Ok JNone)
     /\ (v <> JStr "无名氏" -> Objects.name p = Ok v))
  /\ (Dict.lookup "title" (Objects._raw p) = Some v ->
     (v = JStr "无标题" -> Objects.title p = Ok JNone)
     /\ (v <> JStr "无标题" -> Objects.title p = Ok v)).
Proof.
  repeat apply conj; intros Hv;
    exact (PostFacts.read_with_sentinel _ _ _ _ Hv).
Qed.

(** C7, on a thread record whose four fields hold their sentinels and on
    one whose title is set. *)
Lemma C7_sentinel_projections_witness :
  Objects.attachment_base (Objects.mkPost Sample.thread_record) = Ok JNone
  /\ Objects.attachment_extension (Objects.mkPost Sample.thread_record)
     = Ok JNone
  /\ Objects.name (Objects.mkPost Sample.thread_record) = Ok JNone
  /\ Objects.title (Objects.mkPost Sample.thread_record) = Ok JNone
  /\ Objects.title (Objects.mkPost [("title", JStr "On tea")])
     = Ok (JStr "On tea").
Proof.
  pose proof (C7_sentinel_projections
                (Objects.mkPost Sample.thread_record) (JStr "")) as Hempty.
  pose proof (C7_sentinel_projections
                (Objects.mkPost Sample.thread_record) (JStr "无名氏")) as Hname.
  pose proof (C7_sentinel_projections
                (Objects.mkPost Sample.thread_record) (JStr "无标题")) as Htitle.
  pose proof (C7_sentinel_projections
                (Objects.mkPost [("title", JStr "On tea")])
                (JStr "On tea")) as Hset.
  destruct Hempty as (Himg & Hext & _ & _).
  destruct Hname as (_ & _ & Hname & _).
  destruct Htitle as (_ & _ & _ & Htitle).
  destruct Hset as (_ & _ & _ & Hset).
  repeat apply conj.
  - apply (Himg eq_refl); reflexivity.
  - apply (Hext eq_refl); reflexivity.
  - apply (Hname eq_refl); reflexivity.
  - apply (Htitle eq_refl); reflexivity.
  - apply (Hset eq_refl); discriminate.
Defined.

(** C10.  For every Post, the email projection maps the empty string to
    None and returns any other raw value unchanged. *)
Theorem C10_email_projection (p : Objects.Post) (v : json) :
  Dict.lookup "email" (Objects._raw p) = Some v ->
  (v = JStr "" -> Objects.email p = Ok JNone)
  /\ (v <> JStr "" -> Objects.email p = Ok v).
Proof.
  intros Hv. exact (PostFacts.read_with_sentinel "email" "" _ _ Hv).
Qed.

(** C10, on an empty and on a set email. *)
Lemma C10_email_projection_witness :
  Objects.email (Objects.mkPost Sample.thread_record) = Ok JNone
  /\ Objects.email (Objects.mkPost [("email", JStr "sage")])
     = Ok (JStr "sage").
Proof.
  split.
  - apply (C10_email_projection (Objects.mkPost Sample.thread_record)
             (JStr "")); reflexivity.
  - apply (C10_email_projection (Objects.mkPost [("email", JStr "sage")])
             (JStr "sage")); [reflexivity | discriminate].
Defined.

(** ** Thread serialization *)

Module ThreadFacts.
Import Objects.

Lemma encodable_plain (d : OrderedDict) : encodable (plain d) = Ok d.
Proof.
  induction d as [|[k v] rest IH]; cbn; [reflexivity|].
  unfold plain in IH. now rewrite IH.
Qed.

(** A [map] object anywhere among the fields makes the encoder raise. *)
Lemma encodable_map_object (data : list (string * dump_value)) key :
  Dict.lookup key data = Some MapObject -> encodable data = Err TypeError.
Proof.
  induction data as [|[k w] rest IH]; cbn; [discriminate|].
  destruct (String.eqb k key).
  - intros [= ->]. reflexivity.
  - intros H. destruct w; [|reflexivity]. now rewrite (IH H).
Qed.

Lemma contains_plain key (d : OrderedDict) :
  Dict.contains key (plain d) = Dict.contains key d.
Proof.
  induction d as [|[k v] rest IH]; cbn; [reflexivity|].
  unfold plain in IH. now rewrite IH.
Qed.

(** Once [__replies] is not [None], [to_json] raises. *)
Lemma to_json_raises (t : Thread) :
  __replies t <> NoReplies -> Thread_to_json t = Err TypeError.
Proof.
  intros Hr. unfold Thread_to_json, dumps.
  assert (E : encodable (Dict.setitem (plain (raw_copy (post t))) "replys"
                           MapObject) = Err TypeError).
  { apply (encodable_map_object _ "replys"), DictFacts.lookup_setitem_same. }
  destruct (__replies t); [contradiction | |]; now rewrite E.
Qed.

(** Every record that carries a reply collection: if the Thread can be
    built at all, serializing it raises. *)
Lemma to_json_raises_with_replys (data : OrderedDict) (t : Thread) :
  Dict.contains "replys" data = true ->
  Thread_init data = Ok t -> Thread_to_json t = Err TypeError.
Proof.
  intros Hc. unfold Thread_init. rewrite Hc.
  destruct (Dict.getitem data "replys") as [source|e]; cbn; [|discriminate].
  destruct (Iter.iter source) as [items|e]; cbn; [|discriminate].
  intros [= <-]. now apply to_json_raises.
Qed.

(** Building a Thread keeps the fields of the record in their order: the
    reply collection is replaced where it stands. *)
Lemma Thread_init_keeps_order (data : OrderedDict) (t : Thread) :
  Thread_init data = Ok t -> Dict.keys (_raw (post t)) = Dict.keys data.
Proof.
  unfold Thread_init.
  destruct (Dict.contains "replys" data) eqn:Hc.
  - destruct (Dict.getitem data "replys") as [source|e]; cbn; [|discriminate].
    destruct (Iter.iter source) as [items|e]; cbn; [|discriminate].
    intros [= <-]. cbn. now apply DictFacts.keys_setitem_present.
  - now intros [= <-].
Qed.

(** A record with no reply collection is rendered as it is. *)
Lemma to_json_without_replys (data : OrderedDict) :
  Dict.contains "replys" data = false ->
  (try! t := Thread_init data in Thread_to_json t)
  = Ok (Rendered 2 false (JDict data)).
Proof.
  intros Hc. unfold Thread_init. rewrite Hc. cbn.
  unfold Thread_to_json, dumps, raw_copy; cbn.
  rewrite DictFacts.pop_absent by now rewrite contains_plain.
  now rewrite encodable_plain.
Qed.

End ThreadFacts.

(** C6.  Building a Thread from the sample record, which carries a reply
    collection of three replies, and serializing it without touching
    [replies] does not reproduce the record: [to_json] raises [TypeError]
    (the field is set to an unevaluated [map] object, which [json.dumps]
    cannot encode).  The same record without its reply collection is
    rendered unchanged, fields in their order. *)
Theorem C6_to_json_raises_on_reply_collection :
  (try! t := Objects.Thread_init Sample.thread_record in
   Objects.Thread_to_json t) = Err TypeError
  /\ (try! t := Objects.Thread_init (Dict.pop Sample.thread_record "replys") in
      Objects.Thread_to_json t)
     = Ok (Objects.Rendered 2 false
             (JDict (Dict.pop Sample.thread_record "replys"))).
Proof. split; reflexivity. Qed.

(** ** The login gatekeeper *)

Module GatekeeperFacts.
Import Client Vocabulary.

Section Facts.
Context {RequestOptions : Type} (self : BaseClient RequestOptions).

Lemma page_requires_login_valid (page gk : Z) (options : RequestOptions) :
  is_login_policy (get_login_policy self options) ->
  page_requires_login self page gk options
  = Ok ((String.eqb (get_login_policy self options) "enforce")
        || (String.eqb (get_login_policy self options) "when_has_cookie"
            && has_cookie self options)
        || (page >? gk)).
Proof.
  unfold page_requires_login.
  intros [-> | [-> | [-> | ->]]]; reflexivity.
Qed.

Lemma page_requires_login_invalid (page gk : Z) (options : RequestOptions) :
  ~ is_login_policy (get_login_policy self options) ->
  page_requires_login self page gk options = Err ShouldNotReachException.
Proof.
  intros Hp. unfold page_requires_login.
  destruct (String.eqb_spec (get_login_policy self options) "enforce")
    as [E|_]; [exfalso; apply Hp; red; auto|].
  destruct (String.eqb_spec (get_login_policy self options) "when_has_cookie")
    as [E|_]; [exfalso; apply Hp; red; auto|].
  destruct (String.eqb_spec (get_login_policy self options) "always_no")
    as [E|_]; [exfalso; apply Hp; red; auto|].
  destruct (String.eqb_spec (get_login_policy self options) "when_required")
    as [E|_]; [exfalso; apply Hp; red; auto|].
  reflexivity.
Qed.

(** The decision never fails with anything but the unreachable case. *)
Lemma page_requires_login_err (page gk : Z) (options : RequestOptions) e :
  page_requires_login self page gk options = Err e ->
  e = ShouldNotReachException.
Proof.
  unfold page_requires_login.
  repeat match goal with
         | |- context [if ?b then _ else _] => destruct b
         end; intros H; now inversion H.
Qed.

End Facts.
End GatekeeperFacts.

(** C1.  For every client, options, page and gatekeeper page:
    [page_requires_login] answers true under the policy ["enforce"];
    [has_cookie or page > gate_keeper] under ["when_has_cookie"]; and
    [page > gate_keeper] under ["always_no"] and under ["when_required"].
    Hence two clients under either of these last two policies get the same
    answer whatever their credentials and whichever of the two each has. *)
Theorem C1_page_requires_login_table {RequestOptions : Type}
    (self : BaseClient RequestOptions) (options : RequestOptions)
    (page gate_keeper : Z) :
  (get_login_policy self options = "enforce" ->
     Client.page_requires_login self page gate_keeper options = Ok true)
  /\ (get_login_policy self options = "when_has_cookie" ->
     Client.page_requires_login self page gate_keeper options
     = Ok (has_cookie self options || (page >? gate_keeper)))
  /\ (get_login_policy self options = "always_no"
      \/ get_login_policy self options = "when_required" ->
     Client.page_requires_login self page gate_keeper options
     = Ok (page >? gate_keeper))
  /\ (forall (other : BaseClient RequestOptions) (options' : RequestOptions),
     get_login_policy self options = "always_no"
     \/ get_login_policy self options = "when_required" ->
     get_login_policy other options' = "always_no"
     \/ get_login_policy other options' = "when_required" ->
     Client.page_requires_login other page gate_keeper options'
     = Client.page_requires_login self page gate_keeper options).
Proof.
  unfold Client.page_requires_login. repeat apply conj.
  - intros ->. reflexivity.
  - intros ->. reflexivity.
  - intros [-> | ->]; reflexivity.
  - intros other options' [-> | ->] [-> | ->]; reflexivity.
Qed.

(** C1, at page 101 and page 100 of a gatekeeper page of 100, with and
    without a credential. *)
Lemma C1_page_requires_login_table_witness :
  let opts policy cookie :=
    Sample.mkOptions (Some policy) cookie None None None in
  let self := Sample.client Sample.steady_json_end Sample.no_form_end in
  Client.page_requires_login self 1 100 (opts "enforce" false) = Ok true
  /\ Client.page_requires_login self 1 100 (opts "when_has_cookie" true)
     = Ok true
  /\ Client.page_requires_login self 100 100 (opts "when_has_cookie" false)
     = Ok false
  /\ Client.page_requires_login self 101 100 (opts "always_no" false)
     = Ok true
  /\ Client.page_requires_login self 100 100 (opts "when_required" true)
     = Ok false
  /\ Client.page_requires_login self 101 100 (opts "always_no" true)
     = Client.page_requires_login self 101 100 (opts "when_required" false).
Proof.
  intros opts self. repeat apply conj.
  - destruct (C1_page_requires_login_table self (opts "enforce" false) 1 100)
      as (H & _).
    apply H. reflexivity.
  - destruct (C1_page_requires_login_table self (opts "when_has_cookie" true)
                1 100) as (_ & H & _).
    apply H. reflexivity.
  - destruct (C1_page_requires_login_table self (opts "when_has_cookie" false)
                100 100) as (_ & H & _).
    apply H. reflexivity.
  - destruct (C1_page_requires_login_table self (opts "always_no" false)
                101 100) as (_ & _ & H & _).
    apply H. left; reflexivity.
  - destruct (C1_page_requires_login_table self (opts "when_required" true)
                100 100) as (_ & _ & H & _).
    apply H. right; reflexivity.
  - destruct (C1_page_requires_login_table self (opts "when_required" false)
                101 100) as (_ & _ & _ & H).
    apply H; [right | left]; reflexivity.
Defined.

(** ** The request executor *)

Module ExecutorFacts.
Import Net Executor Vocabulary.

Section Facts.
Context {A : Type} (fn : log -> attempt A * log) (description : string)
        (max_attempts : Z).

(** A success of the loop is a success of its last attempt. *)
Lemma attempts_ok (remaining : nat) :
  forall used calls a total calls',
    attempts fn description max_attempts remaining used calls
    = (Ok (a, total), calls') ->
    exists before usage, fn before = (Returned a usage, calls').
Proof.
  induction remaining as [|rest IH]; intros used calls a total calls';
    cbn; [discriminate|].
  destruct (fn calls) as [outcome calls1] eqn:Efn.
  destruct outcome as [a1 usage|e usage].
  - intros [= <- _ <-]. eauto.
  - destruct (is_retryable e); [|discriminate].
    destruct rest as [|rest']; [discriminate|].
    apply IH.
Qed.

(** A failure of the loop is: nothing was allowed; or the last allowed
    attempt raised a retryable failure, reported with the operation and the
    count; or an attempt raised a fatal failure, reported as it is. *)
Lemma attempts_err (remaining : nat) :
  forall used calls e calls',
    attempts fn description max_attempts remaining used calls
    = (Err e, calls') ->
    e = NothingAttempted description max_attempts
    \/ (exists last, e = RetryExhausted description max_attempts last
                     /\ is_retryable last = true /\ raises fn last)
    \/ (is_retryable e = false /\ raises fn e).
Proof.
  induction remaining as [|rest IH]; intros used calls e calls'; cbn.
  - intros [= <- _]. now left.
  - destruct (fn calls) as [outcome calls1] eqn:Efn.
    destruct outcome as [a1 usage|e1 usage]; [discriminate|].
    assert (Hr : raises fn e1).
    { exists calls, usage. now rewrite Efn. }
    destruct (is_retryable e1) eqn:Eretry.
    + destruct rest as [|rest'].
      * intros [= <- _]. right; left. eauto.
      * apply IH.
    + intros [= <- _]. right; right. auto.
Qed.

(** When every attempt is the one call [c], the loop adds between one and
    [remaining] copies of [c] to the log (none when nothing is allowed). *)
Lemma attempts_log (c : call) (remaining : nat) :
  (forall calls, snd (fn calls) = (calls ++ [c])%list) ->
  forall used calls,
    exists k : nat,
      (k <= remaining)%nat /\ (remaining <> O -> k <> O)
      /\ snd (attempts fn description max_attempts remaining used calls)
         = (calls ++ repeat c k)%list.
Proof.
  intros Hfn. induction remaining as [|rest IH]; intros used calls; cbn.
  - exists O. cbn. rewrite app_nil_r. repeat split; [lia | congruence].
  - specialize (Hfn calls).
    destruct (fn calls) as [outcome calls1]. cbn in Hfn. subst calls1.
    assert (Hone : exists k : nat,
               (k <= S rest)%nat /\ (S rest <> O -> k <> O)
               /\ (calls ++ [c])%list = (calls ++ repeat c k)%list).
    { exists 1%nat. repeat split; [lia | congruence]. }
    destruct outcome as [a usage|e usage]; cbn; [exact Hone|].
    destruct (is_retryable e); [|exact Hone].
    destruct rest as [|rest']; [exact Hone|].
    destruct (IH (add_usage used usage) (calls ++ [c])%list)
      as (k & Hk & Hpos & Hlog).
    exists (S k). repeat split; [lia | congruence|].
    rewrite Hlog, <- app_assoc. reflexivity.
Qed.

End Facts.

(** With at least one attempt allowed the log grows. *)
Lemma try_request_calls {A} (fn : log -> attempt A * log) description
    max_attempts (c : call) calls :
  (forall before, snd (fn before) = (before ++ [c])%list) ->
  1 <= max_attempts ->
  exists more,
    snd (try_request fn description max_attempts calls)
    = (calls ++ c :: more)%list.
Proof.
  intros Hfn Hmax. unfold try_request.
  destruct (attempts_log fn description max_attempts c
              (Z.to_nat max_attempts) Hfn no_usage calls)
    as (k & _ & Hpos & Hlog).
  destruct k as [|k]; [exfalso; apply Hpos; [lia | reflexivity]|].
  exists (repeat c k). exact Hlog.
Qed.

End ExecutorFacts.

(** C5.  A request function that raises a retryable failure on its first
    two attempts and returns [r] on its third: with three attempts allowed
    the executor returns [r] with the usage of all three attempts summed,
    having run the function three times; with two attempts allowed it
    stops after the second attempt and raises the second failure annotated
    with the operation name and the attempt count 2. *)
Theorem C5_executor_retries {A : Type}
    (request_fn : Net.log -> Net.attempt A * Net.log) (operation : string)
    (s0 s1 s2 s3 : Net.log) (e1 e2 : exn) (u1 u2 u3 : Net.BandwidthUsage)
    (r : A) :
  request_fn s0 = (Net.Raised e1 u1, s1) ->
  request_fn s1 = (Net.Raised e2 u2, s2) ->
  request_fn s2 = (Net.Returned r u3, s3) ->
  Executor.is_retryable e1 = true ->
  Executor.is_retryable e2 = true ->
  Executor.try_request request_fn operation 3 s0
  = (Ok (r, Net.mkUsage
              (Net.uploaded u1 + Net.uploaded u2 + Net.uploaded u3)
              (Net.downloaded u1 + Net.downloaded u2 + Net.downloaded u3)),
     s3)
  /\ Executor.try_request request_fn operation 2 s0
     = (Err (RetryExhausted operation 2 e2), s2).
Proof.
  intros H1 H2 H3 R1 R2. unfold Executor.try_request.
  change (Z.to_nat 3) with 3%nat. change (Z.to_nat 2) with 2%nat.
  cbn [Executor.attempts].
  rewrite H1, R1, H2, R2, H3. split; reflexivity.
Qed.

(** C5, on a remote end that is down for two calls: three calls and the
    summed usage with three attempts, two calls and the annotated failure
    with two. *)
Lemma C5_executor_retries_witness :
  let c := Net.GetJson "/Api/thread/id/100" false [("page", 1)] in
  Executor.try_request Sample.flaky_request_fn "fetch" 3 []
  = (Ok (JDict Sample.thread_record, Net.mkUsage 30 600), [c; c; c])
  /\ Executor.try_request Sample.flaky_request_fn "fetch" 2 []
     = (Err (RetryExhausted "fetch" 2 (TransientError "ConnectionError")),
        [c; c]).
Proof.
  intros c.
  apply (C5_executor_retries Sample.flaky_request_fn "fetch"
           [] [c] [c; c] [c; c; c]
           (TransientError "ConnectionError")
           (TransientError "ConnectionError")
           Sample.usage_per_call Sample.usage_per_call Sample.usage_per_call
           (JDict Sample.thread_record)); reflexivity.
Defined.

(** ** The retrieval workflows *)

Module WorkflowFacts.
Import Net Objects Client Vocabulary.

Lemma filter_mapped_err {A B} (make : A -> result B)
    (keep : B -> result bool) (items : list A) e :
  (forall x e', make x = Err e' -> is_gated e' = false) ->
  (forall y e', keep y = Err e' -> is_gated e' = false) ->
  filter_mapped make keep items = Err e -> is_gated e = false.
Proof.
  intros Hmake Hkeep. induction items as [|x rest IH]; cbn; [discriminate|].
  destruct (make x) as [y|e1] eqn:Em; cbn.
  2:{ intros [= <-]. eauto. }
  destruct (keep y) as [k|e1] eqn:Ek; cbn.
  2:{ intros [= <-]. eauto. }
  destruct (filter_mapped make keep rest) as [kept|e1]; cbn; [discriminate|].
  intros [= <-]. now apply IH.
Qed.

Lemma getitem_err {V} (d : list (string * V)) key e :
  Dict.getitem d key = Err e -> is_gated e = false.
Proof.
  unfold Dict.getitem. destruct (Dict.lookup key d); [discriminate|].
  now intros [= <-].
Qed.

Lemma iter_err (v : json) e : Iter.iter v = Err e -> is_gated e = false.
Proof. destruct v; cbn; try discriminate; now intros [= <-]. Qed.

Lemma Post_of_err (v : json) e : Post_of v = Err e -> is_gated e = false.
Proof. destruct v; cbn; try discriminate; now intros [= <-]. Qed.

Lemma not_luwei_err (p : Post) e : not_luwei p = Err e -> is_gated e = false.
Proof.
  unfold not_luwei, user_id.
  destruct (Dict.getitem (_raw p) "userid") eqn:E; cbn; [discriminate|].
  intros [= <-]. exact (getitem_err _ _ _ E).
Qed.

Lemma ThreadPage_err (v : json) e :
  ThreadPage v = Err e -> is_gated e = false.
Proof.
  destruct v; cbn; try (now intros [= <-]).
  unfold Thread_init. destruct (Dict.contains "replys" fields); [|discriminate].
  destruct (Dict.getitem fields "replys") as [source|e1] eqn:Eg; cbn.
  2:{ intros [= <-]. exact (getitem_err _ _ _ Eg). }
  destruct (Iter.iter source) as [items|e1] eqn:Ei; cbn; [discriminate|].
  intros [= <-]. exact (iter_err _ _ Ei).
Qed.

Lemma analysis_step_err (for_analysis : bool) (t : Thread) e :
  analysis_step for_analysis t = Err e -> is_gated e = false.
Proof.
  unfold analysis_step. destruct for_analysis; [|discriminate].
  destruct (list_filter not_luwei (replies t)) as [kept|e1] eqn:Ef; cbn;
    [discriminate|].
  intros [= <-]. unfold list_filter in Ef.
  destruct (replies t) as [|source|posts].
  - now inversion Ef.
  - destruct (Iter.iter source) as [items|e2] eqn:Ei; cbn in Ef.
    + eapply filter_mapped_err; [| |exact Ef].
      * apply Post_of_err.
      * apply not_luwei_err.
    + inversion Ef; subst. exact (iter_err _ _ Ei).
  - eapply filter_mapped_err; [| |exact Ef].
    + discriminate.
    + apply not_luwei_err.
Qed.

Section Facts.
Context {RequestOptions : Type} (self : BaseClient RequestOptions).

(** Each attempt of the thread request is the one call. *)
Lemma thread_request_fn_log id page options needs_login calls :
  snd (thread_request_fn self id page options needs_login calls)
  = (calls ++ [GetJson ("/Api/thread/id/" ++ str_of_int id) needs_login
                 [("page", page)]])%list.
Proof.
  unfold thread_request_fn, _get_json.
  destruct (json_endpoint self options calls _) as [v usage|e usage];
    [|reflexivity].
  destruct (eq_str v "该主题不存在"); [reflexivity|].
  destruct (ThreadPage v); reflexivity.
Qed.

(** Each attempt of the board request is the one call. *)
Lemma board_request_fn_log board_id page options needs_login calls :
  snd (board_request_fn self board_id page options needs_login calls)
  = (calls ++ [GetJson "/Api/showf" needs_login
                 [("id", board_id); ("page", page)]])%list.
Proof.
  unfold board_request_fn, _get_json.
  destruct (json_endpoint self options calls _) as [v usage|e usage];
    [|reflexivity].
  destruct (try! items := Iter.iter v in list_map BoardThread items);
    reflexivity.
Qed.

(** What an attempt of the thread request raises: what the remote end
    raised, the not-found failure, or what decoding raised. *)
Lemma thread_request_fn_raises id page options needs_login e :
  raises (thread_request_fn self id page options needs_login) e ->
  (exists before c usage,
      json_endpoint self options before c = Raised e usage)
  \/ e = ResourceNotExistsException
  \/ (exists v, ThreadPage v = Err e).
Proof.
  intros (calls & usage & H). revert H.
  unfold thread_request_fn, _get_json.
  destruct (json_endpoint self options calls _) as [v u|e1 u] eqn:Ej; cbn.
  - destruct (eq_str v "该主题不存在"); cbn.
    + intros [= <- _]. auto.
    + destruct (ThreadPage v) as [t|e1] eqn:Et; cbn; [discriminate|].
      intros [= <- _]. eauto.
  - intros [= <- _]. eauto.
Qed.

End Facts.
End WorkflowFacts.

(** C3.  A board fetch at the board gatekeeper page is not gated: the
    board decision is the generic decision, never the Gated failure, and
    when that decision does not stop the fetch for want of a credential and
    one attempt is allowed, the read call goes out.  A board fetch at any
    page above the board gatekeeper page fails with the Gated failure,
    whatever the policy and the credential, and the call log is left as it
    was. *)
Theorem C3_board_gate {RequestOptions : Type}
    (self : BaseClient RequestOptions) (options : RequestOptions)
    (board_id page : Z) (calls : Net.log) :
  (page = Client.get_board_gatekeeper_page_number self options ->
     Client.board_page_requires_login self page options
     = Client.page_requires_login self page
         (Client.get_board_gatekeeper_page_number self options) options
     /\ (forall e,
           Client.board_page_requires_login self page options = Err e ->
           Vocabulary.is_gated e = false)
     /\ (forall needs_login,
           Client.board_page_requires_login self page options
           = Ok needs_login ->
           needs_login && negb (has_cookie self options) = false ->
           1 <= get_max_attempts self options ->
           exists more,
             snd (Client.get_board_page self board_id page options calls)
             = (calls ++ Net.GetJson "/Api/showf" needs_login
                           [("id", board_id); ("page", page)] :: more)%list))
  /\ (page > Client.get_board_gatekeeper_page_number self options ->
     Client.get_board_page self board_id page options calls
     = (Err (GatekeptException "check_if_board_page_requires_login"
               None None), calls)).
Proof.
  split.
  - intros Hpage.
    assert (Hboard :
      Client.board_page_requires_login self page options
      = Client.page_requires_login self page
          (Client.get_board_gatekeeper_page_number self options) options).
    { unfold Client.board_page_requires_login.
      destruct (Z.gtb_spec page
                  (Client.get_board_gatekeeper_page_number self options));
        [lia | reflexivity]. }
    repeat apply conj.
    + exact Hboard.
    + intros e He. rewrite Hboard in He.
      apply GatekeeperFacts.page_requires_login_err in He. now subst e.
    + intros needs_login Hneeds Hcookie Hmax.
      unfold Client.get_board_page. rewrite Hneeds, Hcookie.
      apply ExecutorFacts.try_request_calls; [|exact Hmax].
      intros before. apply WorkflowFacts.board_request_fn_log.
  - intros Hpage. unfold Client.get_board_page, Client.board_page_requires_login.
    destruct (Z.gtb_spec page
                (Client.get_board_gatekeeper_page_number self options));
      [reflexivity | lia].
Qed.

(** C3, on the default gatekeeper page 100: page 100 is fetched, page 101
    is gated with a credential and under every policy tried. *)
Lemma C3_board_gate_witness :
  let self := Sample.client Sample.steady_json_end Sample.no_form_end in
  let with_cookie := Sample.mkOptions (Some "enforce") true None None None in
  Client.board_page_requires_login self 100 Sample.defaults = Ok false
  /\ (exists more,
        snd (Client.get_board_page self 4 100 Sample.defaults [])
        = Net.GetJson "/Api/showf" false [("id", 4); ("page", 100)] :: more)
  /\ Client.get_board_page self 4 101 with_cookie []
     = (Err (GatekeptException "check_if_board_page_requires_login"
               None None), [])
  /\ Client.get_board_page self 4 101 Sample.defaults []
     = (Err (GatekeptException "check_if_board_page_requires_login"
               None None), []).
Proof.
  intros self with_cookie.
  destruct (C3_board_gate self Sample.defaults 4 100 [])
    as [Hat _].
  destruct (Hat eq_refl) as (Hsame & _ & Hgoes).
  destruct (C3_board_gate self with_cookie 4 101 []) as [_ Habove].
  destruct (C3_board_gate self Sample.defaults 4 101 []) as [_ Habove'].
  repeat apply conj.
  - rewrite Hsame. reflexivity.
  - apply (Hgoes false); [rewrite Hsame; reflexivity | reflexivity |].
    cbn. lia.
  - apply Habove. reflexivity.
  - apply Habove'. reflexivity.
Defined.

(** C4.  A thread fetch, at any page: (1) it never fails with the Gated
    failure, as long as the remote end does not answer with one; (2) when
    the gatekeeper decision is true and there is no credential it fails
    with Login Required and the call log is left as it was; (3) under one
    of the four policies and with one attempt allowed, a failure that
    leaves the call log as it was is Login Required, the decision was true
    and there was no credential. *)
Theorem C4_thread_fetch_failures {RequestOptions : Type}
    (self : BaseClient RequestOptions) (options : RequestOptions)
    (id page : Z) (for_analysis : bool) (calls : Net.log) :
  ((forall before c e usage,
       json_endpoint self options before c = Net.Raised e usage ->
       Vocabulary.is_gated e = false) ->
   forall e,
     fst (Client.get_thread_page self id page options for_analysis calls)
     = Err e ->
     Vocabulary.is_gated e = false)
  /\ (Client.thread_page_requires_login self page options = Ok true ->
      has_cookie self options = false ->
      Client.get_thread_page self id page options for_analysis calls
      = (Err RequiresLoginException, calls))
  /\ (Vocabulary.is_login_policy (get_login_policy self options) ->
      1 <= get_max_attempts self options ->
      forall e,
        Client.get_thread_page self id page options for_analysis calls
        = (Err e, calls) ->
        e = RequiresLoginException
        /\ Client.thread_page_requires_login self page options = Ok true
        /\ has_cookie self options = false).
Proof.
  repeat apply conj.
  - intros Hnet e. unfold Client.get_thread_page.
    destruct (Client.thread_page_requires_login self page options)
      as [needs_login|e0] eqn:Eneeds; cbn.
    2:{ intros [= <-]. unfold Client.thread_page_requires_login in Eneeds.
        apply GatekeeperFacts.page_requires_login_err in Eneeds.
        now subst e0. }
    destruct (needs_login && negb (has_cookie self options)); cbn.
    { now intros [= <-]. }
    unfold Executor.try_request.
    destruct (Executor.attempts _ _ _ _ _ calls) as [fetched calls'] eqn:Erun.
    destruct fetched as [[thread_page usage]|e0].
    + destruct (Client.analysis_step for_analysis thread_page) as [t|e0]
        eqn:Estep; cbn; [discriminate|].
      intros [= <-]. exact (WorkflowFacts.analysis_step_err _ _ _ Estep).
    + cbn. intros [= <-].
      apply ExecutorFacts.attempts_err in Erun.
      assert (Hraised : forall e1,
                 Vocabulary.raises
                   (Client.thread_request_fn self id page options needs_login)
                   e1 -> Vocabulary.is_gated e1 = false).
      { intros e1 Hr.
        apply WorkflowFacts.thread_request_fn_raises in Hr.
        destruct Hr as [(before & c & u & Hj) | [-> | (v & Hv)]].
        - exact (Hnet _ _ _ _ Hj).
        - reflexivity.
        - exact (WorkflowFacts.ThreadPage_err _ _ Hv). }
      destruct Erun as [-> | [(last & -> & _ & _) | (_ & Hr)]];
        [reflexivity | reflexivity | exact (Hraised _ Hr)].
  - intros Hneeds Hcookie. unfold Client.get_thread_page.
    rewrite Hneeds, Hcookie. reflexivity.
  - intros Hpolicy Hmax e. unfold Client.get_thread_page.
    destruct (Client.thread_page_requires_login self page options)
      as [needs_login|e0] eqn:Eneeds.
    2:{ unfold Client.thread_page_requires_login in Eneeds.
        rewrite (GatekeeperFacts.page_requires_login_valid self _ _ _ Hpolicy)
          in Eneeds. discriminate. }
    destruct (needs_login && negb (has_cookie self options)) eqn:Eblocked.
    { intros [= <-]. apply andb_true_iff in Eblocked as [-> Hc].
      apply negb_true_iff in Hc. auto. }
    intros Hrun. exfalso.
    destruct (ExecutorFacts.try_request_calls
                (Client.thread_request_fn self id page options needs_login)
                ("获取串 " ++ str_of_int id ++ " 第 " ++ str_of_int page ++ " 页")
                (get_max_attempts self options)
                (Net.GetJson ("/Api/thread/id/" ++ str_of_int id) needs_login
                   [("page", page)]) calls) as (more & Hlog);
      [intros before; apply WorkflowFacts.thread_request_fn_log | exact Hmax|].
    destruct (Executor.try_request _ _ _ calls) as [fetched calls'].
    cbn in Hlog. subst calls'.
    assert (Hgrown : (calls ++ Net.GetJson ("/Api/thread/id/" ++ str_of_int id)
                                 needs_login [("page", page)] :: more)%list
                     = (calls ++ [])%list).
    { rewrite app_nil_r.
      destruct fetched as [[thread_page usage]|e0];
        [destruct (Client.analysis_step for_analysis thread_page)|];
        injection Hrun as Hout Hlog; first [discriminate Hout | exact Hlog]. }
    apply app_inv_head in Hgrown. discriminate.
Qed.

(** C4, on a client under the policy ["enforce"] with no credential, over
    a remote end that never raises: the fetch fails with Login Required
    and no call is made. *)
Lemma C4_thread_fetch_failures_witness :
  let self := Sample.client Sample.steady_json_end Sample.no_form_end in
  let opts := Sample.mkOptions (Some "enforce") false None None None in
  Client.get_thread_page self 100 1 opts true []
  = (Err RequiresLoginException, [])
  /\ Vocabulary.is_gated RequiresLoginException = false
  /\ Client.thread_page_requires_login self 1 opts = Ok true
  /\ has_cookie self opts = false.
Proof.
  intros self opts.
  destruct (C4_thread_fetch_failures self opts 100 1 true [])
    as (Hnever & Hlogin & Honly).
  assert (Hrun : Client.get_thread_page self 100 1 opts true []
                 = (Err RequiresLoginException, [])).
  { apply Hlogin; reflexivity. }
  repeat apply conj.
  - exact Hrun.
  - apply Hnever.
    + intros before c e usage. discriminate.
    + rewrite Hrun. reflexivity.
  - apply (Honly (or_introl eq_refl) ltac:(cbn; lia) _ Hrun).
  - apply (Honly (or_introl eq_refl) ltac:(cbn; lia) _ Hrun).
Defined.

(** ** Filtering for analysis *)

Module AnalysisFacts.
Import Net Objects Client Vocabulary.

Lemma by_luwei_spec (p : Post) :
  by_luwei p = true <-> user_id p = Ok (JStr "芦苇").
Proof.
  unfold by_luwei. destruct (user_id p) as [uid|e].
  - rewrite PostFacts.eq_str_spec. split; [now intros -> | now intros [= ->]].
  - split; discriminate.
Qed.

Lemma by_luwei_false (p : Post) :
  by_luwei p = false <-> user_id p <> Ok (JStr "芦苇").
Proof.
  rewrite <- by_luwei_spec. destruct (by_luwei p); split; congruence.
Qed.

Lemma others_sublist (posts : list Post) : sublist (others posts) posts.
Proof.
  induction posts as [|p rest IH]; cbn; [constructor|].
  destruct (by_luwei p); cbn; now constructor.
Qed.

Lemma others_greatest (posts l : list Post) :
  sublist l posts ->
  Forall (fun p => user_id p <> Ok (JStr "芦苇")) l ->
  sublist l (others posts).
Proof.
  induction 1 as [|p l1 l2 Hsub IH|p l1 l2 Hsub IH]; intros Hall; cbn.
  - constructor.
  - inversion Hall as [|? ? Hp Hrest]; subst.
    apply by_luwei_false in Hp. rewrite Hp. cbn.
    constructor. now apply IH.
  - destruct (by_luwei p); cbn; [|constructor]; now apply IH.
Qed.

Lemma others_spec (posts : list Post) : all_but_luwei (others posts) posts.
Proof.
  repeat apply conj.
  - apply others_sublist.
  - intros p. unfold others. rewrite filter_In, negb_true_iff.
    now rewrite by_luwei_false.
  - apply others_greatest.
Qed.

(** The lazy filter over the lazy map, when it comes to a list: every item
    was a record with an author, and the list is the records whose author
    is not the reserved identity. *)
Lemma filter_mapped_others (items : list json) (kept : list Post) :
  filter_mapped Post_of not_luwei items = Ok kept <->
  exists posts,
    list_map Post_of items = Ok posts
    /\ Forall (fun p => is_ok (user_id p) = true) posts
    /\ kept = others posts.
Proof.
  revert kept. induction items as [|x rest IH]; intros kept; cbn.
  - split.
    + intros [= <-]. exists []. repeat split. constructor.
    + intros (posts & [= <-] & _ & ->). reflexivity.
  - destruct (Post_of x) as [p|e]; cbn.
    2:{ split; [discriminate | intros (posts & H & _); discriminate]. }
    unfold not_luwei at 1. unfold by_luwei.
    destruct (user_id p) as [uid|e] eqn:Eu; cbn.
    2:{ split; [discriminate|].
        intros (posts & H & Hall & _).
        destruct (list_map Post_of rest); cbn in H; [|discriminate].
        injection H as <-. inversion Hall as [|? ? Hp _]; subst.
        rewrite Eu in Hp. discriminate. }
    destruct (filter_mapped Post_of not_luwei rest) as [kept'|e] eqn:Er; cbn.
    + destruct (proj1 (IH kept') eq_refl) as (posts' & Hmap & Hall & ->).
      rewrite Hmap; cbn. split.
      * intros [= <-]. exists (p :: posts'). repeat split.
        -- constructor; [now rewrite Eu | exact Hall].
        -- cbn. unfold by_luwei. rewrite Eu.
           now destruct (eq_str uid "芦苇").
      * intros (posts & [= <-] & _ & ->). cbn. unfold by_luwei. rewrite Eu.
        now destruct (eq_str uid "芦苇").
    + split; [discriminate|].
      intros (posts & H & Hall & _).
      destruct (list_map Post_of rest) as [posts'|e'] eqn:Em; cbn in H;
        [|discriminate].
      injection H as <-. inversion Hall as [|? ? _ Hall']; subst.
      assert (Hok : Err e = Ok (others posts')).
      { apply IH. exists posts'. auto. }
      discriminate.
Qed.

Section Facts.
Context {RequestOptions : Type} (self : BaseClient RequestOptions).

(** The fetch for analysis is the plain fetch followed by the filter. *)
Lemma get_thread_page_for_analysis id page options calls t' usage calls' :
  get_thread_page self id page options true calls
  = (Ok (t', usage), calls') <->
  exists t,
    get_thread_page self id page options false calls
    = (Ok (t, usage), calls')
    /\ analysis_step true t = Ok t'.
Proof.
  unfold get_thread_page.
  destruct (thread_page_requires_login self page options) as [needs_login|e].
  2:{ split; [discriminate | intros (t & H & _); discriminate]. }
  destruct (needs_login && negb (has_cookie self options)).
  { split; [discriminate | intros (t & H & _); discriminate]. }
  destruct (Executor.try_request _ _ _ calls) as [fetched calls1].
  destruct fetched as [[t usage1]|e].
  2:{ split; [discriminate | intros (t & H & _); discriminate]. }
  cbn [analysis_step]. split.
  - destruct (try! kept := list_filter not_luwei (replies t) in
              Ok (set_replies t kept)) as [t1|e] eqn:E; [|discriminate].
    intros [= <- <- <-]. exists t. auto.
  - intros (t0 & [= <- <- <-] & Hstep). unfold analysis_step in Hstep.
    now rewrite Hstep.
Qed.

(** A fetched thread holds its replies as [__init__] left them. *)
Lemma fetched_replies id page options calls t usage calls' :
  get_thread_page self id page options false calls
  = (Ok (t, usage), calls') ->
  replies t = NoReplies \/ exists source, replies t = MapOfPosts source.
Proof.
  unfold get_thread_page.
  destruct (thread_page_requires_login self page options) as [needs_login|e];
    [|discriminate].
  destruct (needs_login && negb (has_cookie self options)); [discriminate|].
  unfold Executor.try_request.
  destruct (Executor.attempts _ _ _ _ _ calls) as [fetched calls1] eqn:Erun.
  destruct fetched as [[t1 usage1]|e]; [|discriminate].
  cbn. intros [= <- <- <-].
  apply ExecutorFacts.attempts_ok in Erun.
  destruct Erun as (before & u & Hfn). revert Hfn.
  unfold thread_request_fn, _get_json.
  destruct (json_endpoint self options before _) as [v u1|e u1];
    [|discriminate].
  destruct (eq_str v "该主题不存在"); [discriminate|].
  destruct (ThreadPage v) as [t|e] eqn:Et; [|discriminate].
  intros [= <- _ _]. revert Et.
  destruct v; cbn; try discriminate. unfold Thread_init.
  destruct (Dict.contains "replys" fields).
  - destruct (Dict.getitem fields "replys") as [source|e]; cbn;
      [|discriminate].
    destruct (Iter.iter source); cbn; [|discriminate].
    intros [= <-]. right. eauto.
  - intros [= <-]. now left.
Qed.

End Facts.
End AnalysisFacts.

(** C8.  A thread page fetched with [for_analysis] set: whenever the fetch
    returns, the thread returned has the record of the one the plain fetch
    returns and holds as its replies a list, and that list is the reply
    Posts of the page, in their order, without those whose author is
    ["芦苇"] and without any other left out.  And the fetch does return
    such a thread whenever the plain fetch returns a page whose reply
    collection is a sequence of records that each have an author. *)
Theorem C8_for_analysis_filter {RequestOptions : Type}
    (self : BaseClient RequestOptions) (options : RequestOptions)
    (id page : Z) (calls : Net.log) :
  (forall t' usage calls',
     Client.get_thread_page self id page options true calls
     = (Ok (t', usage), calls') ->
     exists t source items posts kept,
       Client.get_thread_page self id page options false calls
       = (Ok (t, usage), calls')
       /\ Objects.replies t = Objects.MapOfPosts source
       /\ Iter.iter source = Ok items
       /\ Objects.list_map Objects.Post_of items = Ok posts
       /\ Objects.replies t' = Objects.ListOfPosts kept
       /\ Objects.post t' = Objects.post t
       /\ t' = Objects.set_replies t kept
       /\ Vocabulary.all_but_luwei kept posts)
  /\ (forall t usage calls' source items posts,
     Client.get_thread_page self id page options false calls
     = (Ok (t, usage), calls') ->
     Objects.replies t = Objects.MapOfPosts source ->
     Iter.iter source = Ok items ->
     Objects.list_map Objects.Post_of items = Ok posts ->
     Forall (fun p => is_ok (Objects.user_id p) = true) posts ->
     exists t' kept,
       Client.get_thread_page self id page options true calls
       = (Ok (t', usage), calls')
       /\ Objects.replies t' = Objects.ListOfPosts kept
       /\ Objects.post t' = Objects.post t
       /\ t' = Objects.set_replies t kept
       /\ Vocabulary.all_but_luwei kept posts).
Proof.
  split.
  - intros t' usage calls' Hrun.
    apply AnalysisFacts.get_thread_page_for_analysis in Hrun.
    destruct Hrun as (t & Hplain & Hstep).
    pose proof (AnalysisFacts.fetched_replies self _ _ _ _ _ _ _ Hplain)
      as Hreplies.
    unfold Client.analysis_step, Objects.list_filter in Hstep.
    destruct Hreplies as [Hnone | (source & Hsource)].
    { rewrite Hnone in Hstep. discriminate. }
    rewrite Hsource in Hstep.
    destruct (Iter.iter source) as [items|e] eqn:Eiter; [|discriminate].
    cbn in Hstep.
    destruct (Objects.filter_mapped Objects.Post_of Client.not_luwei items)
      as [kept|e] eqn:Ekept; [|discriminate].
    injection Hstep as <-.
    apply AnalysisFacts.filter_mapped_others in Ekept.
    destruct Ekept as (posts & Hposts & _ & ->).
    exists t, source, items, posts, (Vocabulary.others posts).
    exact (conj Hplain (conj Hsource (conj Eiter (conj Hposts
             (conj eq_refl (conj eq_refl (conj eq_refl
                (AnalysisFacts.others_spec posts)))))))).
  - intros t usage calls' source items posts Hplain Hsource Hiter Hposts Hall.
    exists (Objects.set_replies t (Vocabulary.others posts)),
      (Vocabulary.others posts).
    split.
    + apply AnalysisFacts.get_thread_page_for_analysis.
      exists t. split; [exact Hplain|].
      unfold Client.analysis_step, Objects.list_filter.
      rewrite Hsource, Hiter. cbn.
      assert (Hkept : Objects.filter_mapped Objects.Post_of Client.not_luwei
                        items = Ok (Vocabulary.others posts)).
      { apply AnalysisFacts.filter_mapped_others. exists posts. auto. }
      now rewrite Hkept.
    + exact (conj eq_refl (conj eq_refl (conj eq_refl
               (AnalysisFacts.others_spec posts)))).
Qed.

(** C8, on a page of three replies, the second one by ["芦苇"]: the thread
    the fetch for analysis returns holds the list of the first and the
    third. *)
Lemma C8_for_analysis_filter_witness :
  let self := Sample.client Sample.steady_json_end Sample.no_form_end in
  let c := Net.GetJson "/Api/thread/id/100" false [("page", 1)] in
  let posts := [Sample.post_1; Sample.post_2; Sample.post_3] in
  (exists t' kept,
     Client.get_thread_page self 100 1 Sample.defaults true []
     = (Ok (t', Sample.usage_per_call), [c])
     /\ Objects.replies t' = Objects.ListOfPosts kept
     /\ Objects.post t' = Objects.post Sample.thread
     /\ t' = Objects.set_replies Sample.thread kept
     /\ Vocabulary.all_but_luwei kept posts)
  /\ (exists t source items posts' kept,
       Client.get_thread_page self 100 1 Sample.defaults false []
       = (Ok (t, Sample.usage_per_call), [c])
       /\ Objects.replies t = Objects.MapOfPosts source
       /\ Iter.iter source = Ok items
       /\ Objects.list_map Objects.Post_of items = Ok posts'
       /\ Objects.replies
            (Objects.mkThread (Objects.post Sample.thread)
               (Objects.ListOfPosts [Sample.post_1; Sample.post_3]))
          = Objects.ListOfPosts kept
       /\ Objects.post
            (Objects.mkThread (Objects.post Sample.thread)
               (Objects.ListOfPosts [Sample.post_1; Sample.post_3]))
          = Objects.post t
       /\ Objects.mkThread (Objects.post Sample.thread)
            (Objects.ListOfPosts [Sample.post_1; Sample.post_3])
          = Objects.set_replies t kept
       /\ Vocabulary.all_but_luwei kept posts').
Proof.
  intros self c posts.
  destruct (C8_for_analysis_filter self Sample.defaults 100 1 [])
    as [Hreturned Hreturns].
  split.
  - apply (Hreturns Sample.thread Sample.usage_per_call [c]
             Sample.reply_collection
             [JDict (Objects._raw Sample.post_1);
              JDict (Objects._raw Sample.post_2);
              JDict (Objects._raw Sample.post_3)] posts);
      try reflexivity.
    repeat constructor.
  - apply (Hreturned
             (Objects.mkThread (Objects.post Sample.thread)
                (Objects.ListOfPosts [Sample.post_1; Sample.post_3]))
             Sample.usage_per_call [c]).
    reflexivity.
Defined.

(** ** The reply document *)

Module HtmlFacts.
Import Html Vocabulary.

(** Induction over a document, with the property known of the children. *)
Lemma node_induction (P : node -> Prop) :
  (forall s, P (Text s)) ->
  (forall name classes children,
      Forall P children -> P (Tag name classes children)) ->
  forall n, P n.
Proof.
  intros Htext Htag. fix IH 1. intros [s|name classes children].
  - apply Htext.
  - apply Htag. induction children as [|c rest IHrest]; constructor.
    + apply IH.
    + exact IHrest.
Qed.

Lemma below_text n s : ~ below n (Text s).
Proof. intros H. inversion H. Qed.

Lemma below_tag n name classes children :
  below n (Tag name classes children) <->
  exists c, In c children /\ (n = c \/ below n c).
Proof.
  split.
  - intros H. inversion H; subst; eauto.
  - intros (c & Hc & [-> | Hn]).
    + now apply below_child.
    + now apply below_deeper with c.
Qed.

(** [matching] keeps exactly the matching nodes at or below [m]. *)
Lemma matching_spec name cls n m :
  In n (matching name cls m) <->
  (n = m \/ below n m) /\ is_tag name cls n = true.
Proof.
  revert n. induction m as [s|nm classes children IH] using node_induction;
    intros n.
  - cbn. split.
    + intros [].
    + intros [[-> | H] Htag]; [discriminate | now apply below_text in H].
  - cbn [matching]. rewrite in_app_iff, in_flat_map. split.
    + intros [Hhere | (c & Hc & Hin)].
      * destruct (is_tag name cls (Tag nm classes children)) eqn:E;
          [|destruct Hhere].
        destruct Hhere as [<- | []]. auto.
      * rewrite List.Forall_forall in IH. apply (IH c Hc) in Hin.
        destruct Hin as [Hn Htag]. split; [right | exact Htag].
        apply below_tag. eauto.
    + intros [[-> | Hn] Htag].
      * left. rewrite Htag. now left.
      * right. apply below_tag in Hn. destruct Hn as (c & Hc & Hn).
        exists c. split; [exact Hc|].
        rewrite List.Forall_forall in IH. apply (IH c Hc). auto.
Qed.

(** [find_all] returns exactly the matching nodes below the tag. *)
Lemma find_all_spec name cls n tag :
  In n (find_all name cls tag) <->
  below n tag /\ is_tag name cls n = true.
Proof.
  destruct tag as [s|nm classes children]; cbn.
  - split; [intros [] | intros [H _]; now apply below_text in H].
  - rewrite in_flat_map, below_tag. split.
    + intros (c & Hc & Hin). apply matching_spec in Hin.
      destruct Hin as [Hn Htag]. eauto.
    + intros [(c & Hc & Hn) Htag]. exists c. split; [exact Hc|].
      apply matching_spec. auto.
Qed.

Lemma holds_find_all name cls tag :
  holds name cls tag <-> find_all name cls tag <> [].
Proof.
  unfold holds. split.
  - intros (n & Hn). apply find_all_spec in Hn.
    intros E. rewrite E in Hn. destruct Hn.
  - destruct (find_all name cls tag) as [|n rest] eqn:E; [congruence|].
    intros _. exists n. apply find_all_spec. rewrite E. now left.
Qed.

Lemma not_holds_find_all name cls tag :
  ~ holds name cls tag <-> find_all name cls tag = [].
Proof.
  rewrite holds_find_all.
  destruct (find_all name cls tag) as [|n rest]; split.
  - reflexivity.
  - intros _ H. now apply H.
  - intros H. exfalso. apply H. discriminate.
  - discriminate.
Qed.

Lemma find_some name cls tag n :
  find name cls tag = Some n ->
  below n tag /\ is_tag name cls n = true.
Proof.
  unfold find. destruct (find_all name cls tag) as [|first rest] eqn:E;
    [discriminate|].
  intros [= <-]. apply find_all_spec. rewrite E. now left.
Qed.

Lemma find_none name cls tag :
  find name cls tag = None <-> ~ holds name cls tag.
Proof.
  rewrite not_holds_find_all. unfold find.
  destruct (find_all name cls tag); split; congruence.
Qed.

Lemma holds_find name cls tag :
  holds name cls tag -> exists n, find name cls tag = Some n.
Proof.
  rewrite holds_find_all. unfold find.
  destruct (find_all name cls tag) as [|n rest]; [congruence | eauto].
Qed.

End HtmlFacts.

(** C2.  The reply interpreter, on the body [resp_text] and its parsed
    document [doc].  With no system-message container in the document it
    fails with Unknown Response carrying the body.  Otherwise there is a
    first container, and: if the container holds a success marker the
    reply succeeds; if it holds neither a success nor an error marker the
    reply fails with Unknown Response carrying the body; if it holds no
    success marker and [error_div] is its first error marker the reply
    fails with Reply Rejected carrying the text of [error_div] and, as
    detail, nothing when there is no detail marker or the first one has an
    empty text, and the text of the first detail marker otherwise. *)
Theorem C2_reply_classifier (resp_text : string) (doc : Html.node) :
  (~ Vocabulary.holds "div" "system-message" doc ->
     Reply.interpret resp_text doc = Err (UnknownResponseException resp_text))
  /\ (Vocabulary.holds "div" "system-message" doc ->
      exists container,
        Html.find "div" "system-message" doc = Some container
        /\ Vocabulary.below container doc)
  /\ (forall container,
      Html.find "div" "system-message" doc = Some container ->
      (Vocabulary.holds "p" "success" container ->
         Reply.interpret resp_text doc = Ok tt)
      /\ (~ Vocabulary.holds "p" "success" container ->
          ~ Vocabulary.holds "p" "error" container ->
          Reply.interpret resp_text doc
          = Err (UnknownResponseException resp_text))
      /\ (~ Vocabulary.holds "p" "success" container ->
          forall error_div,
            Html.find "p" "error" container = Some error_div ->
            (~ Vocabulary.holds "p" "detail" container ->
               Reply.interpret resp_text doc
               = Err (ReplyException (Html.text error_div) None))
            /\ (forall detail_div,
                  Html.find "p" "detail" container = Some detail_div ->
                  (Html.text detail_div = "" ->
                     Reply.interpret resp_text doc
                     = Err (ReplyException (Html.text error_div) None))
                  /\ (Html.text detail_div <> "" ->
                      Reply.interpret resp_text doc
                      = Err (ReplyException (Html.text error_div)
                               (Some (Html.text detail_div))))))).
Proof.
  repeat apply conj.
  - intros Hnone. apply HtmlFacts.find_none in Hnone.
    unfold Reply.interpret. now rewrite Hnone.
  - intros Hsome. destruct (HtmlFacts.holds_find _ _ _ Hsome) as (c & Hc).
    exists c. split; [exact Hc|]. now apply HtmlFacts.find_some in Hc.
  - intros container Hfind. unfold Reply.interpret. rewrite Hfind.
    repeat apply conj.
    + intros Hok. apply HtmlFacts.holds_find_all in Hok.
      destruct (Html.find_all "p" "success" container); congruence.
    + intros Hok Herr.
      apply HtmlFacts.not_holds_find_all in Hok, Herr.
      now rewrite Hok, Herr.
    + intros Hok error_div Herr.
      apply HtmlFacts.not_holds_find_all in Hok. rewrite Hok.
      unfold Html.find in Herr.
      destruct (Html.find_all "p" "error" container) as [|e rest];
        [discriminate|].
      injection Herr as ->. split.
      * intros Hdetail. apply HtmlFacts.not_holds_find_all in Hdetail.
        now rewrite Hdetail.
      * intros detail_div Hdetail. unfold Html.find in Hdetail.
        destruct (Html.find_all "p" "detail" container) as [|d rest'];
          [discriminate|].
        injection Hdetail as ->. split.
        -- intros ->. reflexivity.
        -- intros Hne. apply String.eqb_neq in Hne. now rewrite Hne.
Qed.

(** C2, on the four fixture documents. *)
Lemma C2_reply_classifier_witness :
  let container doc :=
    match doc with
    | Html.Tag _ _ (c :: _) => c
    | _ => doc
    end in
  Reply.interpret "body" Sample.success_doc = Ok tt
  /\ Reply.interpret "body" Sample.error_doc
     = Err (ReplyException "没有选定回复的帖子" None)
  /\ Reply.interpret "body" Sample.bare_doc
     = Err (UnknownResponseException "body")
  /\ Reply.interpret "body" Sample.other_doc
     = Err (UnknownResponseException "body")
  /\ (exists c, Html.find "div" "system-message" Sample.success_doc = Some c
                /\ Vocabulary.below c Sample.success_doc).
Proof.
  intros container.
  assert (Hyes : forall name cls tag,
             Html.find_all name cls tag <> [] -> Vocabulary.holds name cls tag).
  { intros name cls tag. apply HtmlFacts.holds_find_all. }
  assert (Hno : forall name cls tag,
             Html.find_all name cls tag = [] ->
             ~ Vocabulary.holds name cls tag).
  { intros name cls tag. apply HtmlFacts.not_holds_find_all. }
  repeat apply conj.
  - destruct (C2_reply_classifier "body" Sample.success_doc)
      as (_ & _ & Hin).
    apply (Hin (container Sample.success_doc) eq_refl).
    apply Hyes. discriminate.
  - destruct (C2_reply_classifier "body" Sample.error_doc) as (_ & _ & Hin).
    destruct (Hin (container Sample.error_doc) eq_refl) as (_ & _ & Herr).
    destruct (Herr (Hno "p" "success" (container Sample.error_doc) eq_refl)
                (Html.Tag "p" ["error"]
                [Html.Text "没有选定回复的帖子"]) eq_refl) as (_ & Hdetail).
    apply (Hdetail (Html.Tag "p" ["detail"] []) eq_refl). reflexivity.
  - destruct (C2_reply_classifier "body" Sample.bare_doc) as (_ & _ & Hin).
    apply (Hin (container Sample.bare_doc) eq_refl); apply Hno; reflexivity.
  - destruct (C2_reply_classifier "body" Sample.other_doc) as (Hout & _).
    apply Hout, Hno. reflexivity.
  - destruct (C2_reply_classifier "body" Sample.success_doc)
      as (_ & Hhas & _).
    apply Hhas, Hyes. discriminate.
Defined.

(** C9, as the specification states it, fails.  A client with a credential,
    so that its session is made, three attempts configured, and a write
    endpoint that is down for the first call only: [reply_thread] makes one
    call and fails with the transport failure; run through the executor
    the same write makes two calls and succeeds with the usage of both. *)
Lemma C9_reply_not_retried :
  let self := Sample.client Sample.steady_json_end Sample.flaky_form_end in
  let c := Reply.reply_call self "hello" 100 None None None in
  has_cookie self Sample.with_cookie = true
  /\ _make_session self Sample.with_cookie true = Ok tt
  /\ get_max_attempts self Sample.with_cookie = 3
  /\ Reply.reply_thread self Sample.parse "hello" 100 None None None
       Sample.with_cookie []
     = (Err (TransientError "ConnectionError"), [c])
  /\ Reply.reply_thread_through_executor self Sample.parse Sample.post_usage
       "hello" 100 None None None Sample.with_cookie []
     = (Ok (tt, Net.mkUsage 20 400), [c; c])
  /\ ~ Vocabulary.reply_runs_through_executor self Sample.parse
         Sample.post_usage.
Proof.
  intros self c. repeat apply conj; try reflexivity.
  intros Hclaim.
  destruct (Hclaim "hello" 100 None None None Sample.with_cookie [])
    as [Hlog _].
  discriminate Hlog.
Qed.

(** C9, amended.  When its session cannot be made, [reply_thread] raises
    that failure and makes no call.  When the session is made,
    [reply_thread] makes its write call itself, once: the log grows by
    exactly the one call, whatever the attempt ceiling; a failure of the
    call is raised as it is, with no second call; an answered call is
    checked for its status and interpreted; and what is returned is the
    outcome alone, with no usage total. *)
Theorem C9_reply_single_call {RequestOptions : Type}
    (self : BaseClient RequestOptions) (BeautifulSoup : string -> Html.node)
    (content : string) (to_thread_id : Z) (name email title : option string)
    (options : RequestOptions) (calls : Net.log) :
  (forall e,
      _make_session self options true = Err e ->
      Reply.reply_thread self BeautifulSoup content to_thread_id
        name email title options calls = (Err e, calls))
  /\ (_make_session self options true = Ok tt ->
      snd (Reply.reply_thread self BeautifulSoup content to_thread_id
             name email title options calls)
      = (calls ++ [Reply.reply_call self content to_thread_id name email
                     title])%list
      /\ (forall e,
            form_endpoint self options calls
              (Reply.reply_call self content to_thread_id name email title)
            = Err e ->
            Reply.reply_thread self BeautifulSoup content to_thread_id
              name email title options calls
            = (Err e,
               (calls ++ [Reply.reply_call self content to_thread_id name
                            email title])%list))
      /\ (forall resp,
            form_endpoint self options calls
              (Reply.reply_call self content to_thread_id name email title)
            = Ok resp ->
            fst (Reply.reply_thread self BeautifulSoup content to_thread_id
                   name email title options calls)
            = (try! checked := Net.raise_for_status resp in
               Reply.interpret (Net.text resp)
                 (BeautifulSoup (Net.text resp))))).
Proof.
  split.
  - intros e Hsession. unfold Reply.reply_thread. now rewrite Hsession.
  - intros Hsession. unfold Reply.reply_thread. rewrite Hsession.
    destruct (form_endpoint self options calls _) as [resp|e].
    + destruct (Net.raise_for_status resp) as [[]|e] eqn:Estatus.
      * repeat apply conj; [reflexivity | discriminate|].
        intros resp' [= <-]. rewrite Estatus. reflexivity.
      * repeat apply conj; [reflexivity | discriminate|].
        intros resp' [= <-]. rewrite Estatus. reflexivity.
    + repeat apply conj; [reflexivity | | discriminate].
      now intros e' [= <-].
Qed.

(** C9 amended, over the write endpoint that is down for the first call
    and with three attempts configured.  With a credential: one call, and
    its failure; the same reply after one earlier call succeeds.  With no
    credential: the session failure and no call. *)
Lemma C9_reply_single_call_witness :
  let self := Sample.client Sample.steady_json_end Sample.flaky_form_end in
  let c := Reply.reply_call self "hello" 100 None None None in
  Reply.reply_thread self Sample.parse "hello" 100 None None None
    Sample.with_cookie []
  = (Err (TransientError "ConnectionError"), [c])
  /\ snd (Reply.reply_thread self Sample.parse "hello" 100 None None None
            Sample.with_cookie [c]) = [c; c]
  /\ fst (Reply.reply_thread self Sample.parse "hello" 100 None None None
            Sample.with_cookie [c]) = Ok tt
  /\ Reply.reply_thread self Sample.parse "hello" 100 None None None
       Sample.defaults []
     = (Err RequiresLoginException, []).
Proof.
  intros self c.
  destruct (C9_reply_single_call self Sample.parse "hello" 100 None None None
              Sample.with_cookie []) as (_ & Hfirst).
  destruct (Hfirst eq_refl) as (_ & Hfail & _).
  destruct (C9_reply_single_call self Sample.parse "hello" 100 None None None
              Sample.with_cookie [c]) as (_ & Hsecond).
  destruct (Hsecond eq_refl) as (Hlog & _ & Hanswered).
  destruct (C9_reply_single_call self Sample.parse "hello" 100 None None None
              Sample.defaults []) as (Hnone & _).
  repeat apply conj.
  - apply Hfail. reflexivity.
  - exact Hlog.
  - rewrite (Hanswered (Net.mkResponse 200 Sample.success_page) eq_refl).
    reflexivity.
  - apply Hnone. reflexivity.
Defined.

(** ** More on records, Posts and Threads *)

Module ObjectsMore.
Import Objects.

Lemma lookup_setitem_other {V} (key k : string) (d : list (string * V)) v :
  k <> key -> Dict.lookup k (Dict.setitem d key v) = Dict.lookup k d.
Proof.
  intros Hk. induction d as [|[k' w] rest IH]; cbn.
  - destruct (String.eqb_spec key k); [congruence | reflexivity].
  - destruct (String.eqb_spec k' key) as [->|Hne]; cbn.
    + destruct (String.eqb_spec key k); [congruence | reflexivity].
    + now rewrite IH.
Qed.

Lemma pop_plain key (d : OrderedDict) :
  Dict.pop (plain d) key = plain (Dict.pop d key).
Proof.
  induction d as [|[k v] rest IH]; cbn; [reflexivity|].
  destruct (String.eqb k key); cbn; [reflexivity|].
  unfold plain in IH. now rewrite IH.
Qed.

(** Reading [field] with a sentinel gives [None] exactly for the sentinel
    and for a stored [None]. *)
Lemma read_none_iff (field sentinel : string) (raw : OrderedDict) :
  (try! w := Dict.getitem raw field in Ok (_none_if w sentinel)) = Ok JNone
  <-> Dict.lookup field raw = Some (JStr sentinel)
      \/ Dict.lookup field raw = Some JNone.
Proof.
  unfold Dict.getitem. destruct (Dict.lookup field raw) as [v|]; cbn.
  - unfold _none_if. destruct (eq_str v sentinel) eqn:E.
    + apply PostFacts.eq_str_spec in E. subst v. split; auto.
    + split.
      * intros [= ->]. auto.
      * intros [[= ->] | [= ->]]; [|reflexivity].
        cbn in E. rewrite String.eqb_refl in E. discriminate.
  - split; [discriminate | intros [H | H]; discriminate].
Qed.

(** A flag read as [raw[field] != "0"]. *)
Lemma read_flag (field : string) (raw : OrderedDict) (b : bool) :
  (try! v := Dict.getitem raw field in Ok (negb (eq_str v "0"))) = Ok b
  <-> exists v, Dict.lookup field raw = Some v
                /\ (b = false <-> v = JStr "0").
Proof.
  unfold Dict.getitem. destruct (Dict.lookup field raw) as [v|]; cbn.
  - pose proof (PostFacts.eq_str_spec v "0") as Hspec. split.
    + intros [= <-]. exists v. split; [reflexivity|].
      rewrite negb_false_iff. exact Hspec.
    + intros (v' & [= <-] & Hb). f_equal.
      destruct (eq_str v "0") eqn:E; cbn.
      * symmetry. apply Hb, Hspec. reflexivity.
      * destruct b; [reflexivity|].
        assert (Hv : v = JStr "0") by now apply Hb.
        apply Hspec in Hv. congruence.
  - split; [discriminate | intros (v & H & _); discriminate].
Qed.

End ObjectsMore.

(** X1.  A projection of a Post whose record lacks the field it reads
    raises [KeyError] naming that field, for each of the eleven
    projections. *)
Theorem X1_missing_field_raises (p : Objects.Post) :
  (Dict.lookup "id" (Objects._raw p) = None ->
     Objects.id p = Err (KeyError "id"))
  /\ (Dict.lookup "img" (Objects._raw p) = None ->
      Objects.attachment_base p = Err (KeyError "img"))
  /\ (Dict.lookup "ext" (Objects._raw p) = None ->
      Objects.attachment_extension p = Err (KeyError "ext"))
  /\ (Dict.lookup "now" (Objects._raw p) = None ->
      Objects.created_at_raw_text p = Err (KeyError "now"))
  /\ (Dict.lookup "userid" (Objects._raw p) = None ->
      Objects.user_id p = Err (KeyError "userid"))
  /\ (Dict.lookup "name" (Objects._raw p) = None ->
      Objects.name p = Err (KeyError "name"))
  /\ (Dict.lookup "email" (Objects._raw p) = None ->
      Objects.email p = Err (KeyError "email"))
  /\ (Dict.lookup "title" (Objects._raw p) = None ->
      Objects.title p = Err (KeyError "title"))
  /\ (Dict.lookup "content" (Objects._raw p) = None ->
      Objects.content p = Err (KeyError "content"))
  /\ (Dict.lookup "sage" (Objects._raw p) = None ->
      Objects.marked_sage p = Err (KeyError "sage"))
  /\ (Dict.lookup "admin" (Objects._raw p) = None ->
      Objects.marked_admin p = Err (KeyError "admin")).
Proof.
  unfold Objects.id, Objects.attachment_base, Objects.attachment_extension,
    Objects.created_at_raw_text, Objects.user_id, Objects.name,
    Objects.email, Objects.title, Objects.content, Objects.marked_sage,
    Objects.marked_admin.
  repeat apply conj; intros H;
    rewrite (PostFacts.read_missing _ _ H); reflexivity.
Qed.

(** X1, on a reply record that has an id, an author and a content only. *)
Lemma X1_missing_field_raises_witness :
  Objects.attachment_base Sample.post_1 = Err (KeyError "img")
  /\ Objects.title Sample.post_1 = Err (KeyError "title")
  /\ Objects.marked_sage Sample.post_1 = Err (KeyError "sage")
  /\ Objects.id (Objects.mkPost []) = Err (KeyError "id").
Proof.
  destruct (X1_missing_field_raises Sample.post_1)
    as (_ & Himg & _ & _ & _ & _ & _ & Htitle & _ & Hsage & _).
  destruct (X1_missing_field_raises (Objects.mkPost [])) as (Hid & _).
  repeat apply conj.
  - apply Himg. reflexivity.
  - apply Htitle. reflexivity.
  - apply Hsage. reflexivity.
  - apply Hid. reflexivity.
Defined.

(** X2.  [marked_sage] and [marked_admin] answer false exactly when the
    flag field holds the string ["0"], and true for any other stored
    value, the integer 0 and [None] included. *)
Theorem X2_flags (p : Objects.Post) :
  (Objects.marked_sage p = Ok false
   <-> Dict.lookup "sage" (Objects._raw p) = Some (JStr "0"))
  /\ (Objects.marked_sage p = Ok true
      <-> exists v, Dict.lookup "sage" (Objects._raw p) = Some v
                    /\ v <> JStr "0")
  /\ (Objects.marked_admin p = Ok false
      <-> Dict.lookup "admin" (Objects._raw p) = Some (JStr "0"))
  /\ (Objects.marked_admin p = Ok true
      <-> exists v, Dict.lookup "admin" (Objects._raw p) = Some v
                    /\ v <> JStr "0").
Proof.
  assert (Hfalse : forall field raw,
    (try! v := Dict.getitem raw field in
     Ok (negb (Objects.eq_str v "0"))) = Ok false
    <-> Dict.lookup field raw = Some (JStr "0")).
  { intros field raw. rewrite ObjectsMore.read_flag. split.
    - intros (v & Hv & Hb). rewrite Hv. f_equal. now apply Hb.
    - intros Hv. exists (JStr "0"). tauto. }
  assert (Htrue : forall field raw,
    (try! v := Dict.getitem raw field in
     Ok (negb (Objects.eq_str v "0"))) = Ok true
    <-> exists v, Dict.lookup field raw = Some v /\ v <> JStr "0").
  { intros field raw. rewrite ObjectsMore.read_flag. split.
    - intros (v & Hv & Hb). exists v. split; [exact Hv|].
      intros E. apply Hb in E. discriminate.
    - intros (v & Hv & Hne). exists v. split; [exact Hv|].
      split; [discriminate | contradiction]. }
  unfold Objects.marked_sage, Objects.marked_admin.
  repeat apply conj; first [apply Hfalse | apply Htrue].
Qed.

(** X2, on the string ["0"], the string ["1"] and the integer 0. *)
Lemma X2_flags_witness :
  Objects.marked_sage (Objects.mkPost [("sage", JStr "0")]) = Ok false
  /\ Objects.marked_sage (Objects.mkPost [("sage", JStr "1")]) = Ok true
  /\ Objects.marked_admin (Objects.mkPost [("admin", JInt 0)]) = Ok true.
Proof.
  destruct (X2_flags (Objects.mkPost [("sage", JStr "0")])) as (H0 & _).
  destruct (X2_flags (Objects.mkPost [("sage", JStr "1")])) as (_ & H1 & _).
  destruct (X2_flags (Objects.mkPost [("admin", JInt 0)]))
    as (_ & _ & _ & Hint).
  repeat apply conj.
  - apply H0. reflexivity.
  - apply H1. exists (JStr "1"). split; [reflexivity | discriminate].
  - apply Hint. exists (JInt 0). split; [reflexivity | discriminate].
Defined.

(** X3.  Each projection with a sentinel returns None exactly when the
    field holds its sentinel or holds None: a caller cannot tell the two
    apart, and no other stored value is ever turned into None. *)
Theorem X3_none_iff_sentinel_or_none (p : Objects.Post) :
  (Objects.attachment_base p = Ok JNone
   <-> Dict.lookup "img" (Objects._raw p) = Some (JStr "")
       \/ Dict.lookup "img" (Objects._raw p) = Some JNone)
  /\ (Objects.attachment_extension p = Ok JNone
      <-> Dict.lookup "ext" (Objects._raw p) = Some (JStr "")
          \/ Dict.lookup "ext" (Objects._raw p) = Some JNone)
  /\ (Objects.name p = Ok JNone
      <-> Dict.lookup "name" (Objects._raw p) = Some (JStr "无名氏")
          \/ Dict.lookup "name" (Objects._raw p) = Some JNone)
  /\ (Objects.email p = Ok JNone
      <-> Dict.lookup "email" (Objects._raw p) = Some (JStr "")
          \/ Dict.lookup "email" (Objects._raw p) = Some JNone)
  /\ (Objects.title p = Ok JNone
      <-> Dict.lookup "title" (Objects._raw p) = Some (JStr "无标题")
          \/ Dict.lookup "title" (Objects._raw p) = Some JNone).
Proof.
  repeat apply conj; apply ObjectsMore.read_none_iff.
Qed.

(** X3, on a title that is None and on a name that is the sentinel. *)
Lemma X3_none_iff_sentinel_or_none_witness :
  Objects.title (Objects.mkPost [("title", JNone)]) = Ok JNone
  /\ Objects.name (Objects.mkPost Sample.thread_record) = Ok JNone.
Proof.
  destruct (X3_none_iff_sentinel_or_none (Objects.mkPost [("title", JNone)]))
    as (_ & _ & _ & _ & Htitle).
  destruct (X3_none_iff_sentinel_or_none
              (Objects.mkPost Sample.thread_record))
    as (_ & _ & Hname & _).
  split.
  - apply Htitle. right. reflexivity.
  - apply Hname. left. reflexivity.
Defined.

(** X4.  Building a Thread fails only on a record whose reply collection
    is not iterable, that is None, a boolean or a number, and the failure
    is then [TypeError]; every other record gives a Thread. *)
Theorem X4_Thread_init_fails_on_non_iterable (data : OrderedDict) :
  (forall e,
      Objects.Thread_init data = Err e ->
      e = TypeError
      /\ exists v, Dict.lookup "replys" data = Some v
                   /\ (v = JNone \/ (exists b, v = JBool b)
                       \/ (exists z, v = JInt z)
                       \/ (exists l, v = JFloat l)))
  /\ (forall v,
        Dict.lookup "replys" data = Some v ->
        (v = JNone \/ (exists b, v = JBool b) \/ (exists z, v = JInt z)
         \/ (exists l, v = JFloat l)) ->
        Objects.Thread_init data = Err TypeError).
Proof.
  unfold Objects.Thread_init, Dict.getitem. split.
  - intros e.
    destruct (Dict.contains "replys" data) eqn:Hc; [|discriminate].
    destruct (Dict.lookup "replys" data) as [v|] eqn:Hv; cbn.
    + destruct v; cbn; try discriminate; intros [= <-];
        (split; [reflexivity | eexists; split; [reflexivity | eauto 6]]).
    + apply DictFacts.contains_lookup in Hc. destruct Hc as (v & Hc).
      congruence.
  - intros v Hv Hkind.
    assert (Hc : Dict.contains "replys" data = true).
    { apply DictFacts.contains_lookup. eauto. }
    rewrite Hc, Hv. cbn.
    destruct Hkind as [-> | [(b & ->) | [(z & ->) | (l & ->)]]]; reflexivity.
Qed.

(** X4, on a record whose reply collection is None. *)
Lemma X4_Thread_init_fails_on_non_iterable_witness :
  Objects.Thread_init [("id", JInt 1); ("replys", JNone)] = Err TypeError.
Proof.
  destruct (X4_Thread_init_fails_on_non_iterable
              [("id", JInt 1); ("replys", JNone)]) as (_ & Hfails).
  apply (Hfails JNone); [reflexivity | left; reflexivity].
Defined.

(** X5.  Building a Thread changes its record in one place only.  The
    fields keep their order and every field but the reply collection keeps
    its value; a reply collection is replaced where it stands by None and
    is what the lazy replies range over; a record without one is kept as
    it is, with no replies. *)
Theorem X5_Thread_init_detaches_replies (data : OrderedDict)
    (t : Objects.Thread) :
  Objects.Thread_init data = Ok t ->
  Dict.keys (Objects._raw (Objects.post t)) = Dict.keys data
  /\ (forall k, k <> "replys" ->
        Dict.lookup k (Objects._raw (Objects.post t)) = Dict.lookup k data)
  /\ (forall source,
        Dict.lookup "replys" data = Some source ->
        Dict.lookup "replys" (Objects._raw (Objects.post t)) = Some JNone
        /\ Objects.replies t = Objects.MapOfPosts source)
  /\ (Dict.lookup "replys" data = None ->
      Objects._raw (Objects.post t) = data
      /\ Objects.replies t = Objects.NoReplies).
Proof.
  unfold Objects.Thread_init, Dict.getitem.
  destruct (Dict.contains "replys" data) eqn:Hc.
  - destruct (Dict.lookup "replys" data) as [v|] eqn:Hv; cbn; [|discriminate].
    destruct (Iter.iter v); cbn; [|discriminate].
    intros [= <-]. cbn. repeat apply conj.
    + now apply DictFacts.keys_setitem_present.
    + intros k Hk. now apply ObjectsMore.lookup_setitem_other.
    + intros source [= <-]. split; [|reflexivity].
      apply DictFacts.lookup_setitem_same.
    + discriminate.
  - intros [= <-]. cbn. apply DictFacts.contains_false_lookup in Hc.
    repeat apply conj.
    + reflexivity.
    + reflexivity.
    + intros source Hs. congruence.
    + intros _. split; reflexivity.
Qed.

(** X5, on the sample thread record. *)
Lemma X5_Thread_init_detaches_replies_witness :
  Dict.keys (Objects._raw (Objects.post Sample.thread))
  = Dict.keys Sample.thread_record
  /\ Dict.lookup "title" (Objects._raw (Objects.post Sample.thread))
     = Some (JStr "无标题")
  /\ Dict.lookup "replys" (Objects._raw (Objects.post Sample.thread))
     = Some JNone
  /\ Objects.replies Sample.thread
     = Objects.MapOfPosts Sample.reply_collection.
Proof.
  destruct (X5_Thread_init_detaches_replies Sample.thread_record
              Sample.thread eq_refl) as (Hkeys & Hother & Hreplys & _).
  repeat apply conj.
  - exact Hkeys.
  - rewrite Hother; [reflexivity | discriminate].
  - apply (Hreplys Sample.reply_collection). reflexivity.
  - apply (Hreplys Sample.reply_collection). reflexivity.
Defined.

(** X6.  [Thread.to_json] returns exactly when the Thread has no replies:
    it then renders the record without its reply field, the other fields
    in their order.  With replies of any kind it raises [TypeError]; in
    particular it raises after the replies setter was given any list, the
    empty one included. *)
Theorem X6_Thread_to_json (t : Objects.Thread) :
  (Objects.replies t = Objects.NoReplies ->
     Objects.Thread_to_json t
     = Ok (Objects.Rendered 2 false
             (JDict (Dict.pop (Objects._raw (Objects.post t)) "replys"))))
  /\ (Objects.replies t <> Objects.NoReplies ->
      Objects.Thread_to_json t = Err TypeError)
  /\ (forall posts,
        Objects.Thread_to_json (Objects.set_replies t posts)
        = Err TypeError).
Proof.
  repeat apply conj.
  - unfold Objects.replies. intros Hr.
    unfold Objects.Thread_to_json, Objects.dumps, Objects.raw_copy.
    rewrite Hr, ObjectsMore.pop_plain, ThreadFacts.encodable_plain.
    reflexivity.
  - apply ThreadFacts.to_json_raises.
  - intros posts. apply ThreadFacts.to_json_raises. discriminate.
Qed.

(** X6, on a Thread with no replies and on one given an empty list. *)
Lemma X6_Thread_to_json_witness :
  let bare := Objects.mkThread (Objects.mkPost [("id", JInt 1)])
                Objects.NoReplies in
  Objects.Thread_to_json bare
  = Ok (Objects.Rendered 2 false (JDict [("id", JInt 1)]))
  /\ Objects.Thread_to_json Sample.thread = Err TypeError
  /\ Objects.Thread_to_json (Objects.set_replies bare []) = Err TypeError.
Proof.
  intros bare.
  destruct (X6_Thread_to_json bare) as (Hbare & _ & Hset).
  destruct (X6_Thread_to_json Sample.thread) as (_ & Hlazy & _).
  repeat apply conj.
  - apply Hbare. reflexivity.
  - apply Hlazy. discriminate.
  - apply Hset.
Defined.

(** X7.  [total_reply_count] reads the record, not the replies: for a
    Thread built from a record it is [int] of the record's ["replyCount"],
    a missing field raising [KeyError], and replacing the replies through
    the setter leaves it as it was. *)
Theorem X7_total_reply_count (int : json -> result Z) (data : OrderedDict)
    (t : Objects.Thread) :
  Objects.Thread_init data = Ok t ->
  Objects.total_reply_count int t
  = (try! v := Dict.getitem data "replyCount" in int v)
  /\ (Dict.lookup "replyCount" data = None ->
      Objects.total_reply_count int t = Err (KeyError "replyCount"))
  /\ (forall posts,
        Objects.total_reply_count int (Objects.set_replies t posts)
        = Objects.total_reply_count int t).
Proof.
  intros Ht.
  assert (Hsame : Dict.getitem (Objects._raw (Objects.post t)) "replyCount"
                  = Dict.getitem data "replyCount").
  { unfold Dict.getitem. revert Ht. unfold Objects.Thread_init.
    destruct (Dict.contains "replys" data).
    - destruct (Dict.getitem data "replys") as [v|]; cbn; [|discriminate].
      destruct (Iter.iter v); cbn; [|discriminate].
      intros [= <-]. cbn.
      rewrite ObjectsMore.lookup_setitem_other; [reflexivity | discriminate].
    - now intros [= <-]. }
  unfold Objects.total_reply_count. rewrite Hsame. repeat apply conj.
  - reflexivity.
  - intros Hnone. unfold Dict.getitem. now rewrite Hnone.
  - intros posts. cbn. now rewrite Hsame.
Qed.

(** X7, on the sample thread, with an [int] that reads one digit. *)
Lemma X7_total_reply_count_witness :
  let int v := match v with JStr "3" => Ok 3 | _ => Err TypeError end in
  Objects.total_reply_count int Sample.thread = Ok 3
  /\ Objects.total_reply_count int
       (Objects.set_replies Sample.thread [Sample.post_1]) = Ok 3.
Proof.
  intros int.
  destruct (X7_total_reply_count int Sample.thread_record Sample.thread
              eq_refl) as (Hcount & _ & Hset).
  split.
  - rewrite Hcount. reflexivity.
  - rewrite Hset, Hcount. reflexivity.
Defined.

(** ** More on filtering for analysis *)

Module AnalysisMore.
Import Net Objects Client Vocabulary.

(** What the lazy filter keeps passes the test. *)
Lemma filter_mapped_kept {A B} (make : A -> result B)
    (keep : B -> result bool) (items : list A) (kept : list B) :
  filter_mapped make keep items = Ok kept ->
  Forall (fun y => keep y = Ok true) kept.
Proof.
  revert kept. induction items as [|x rest IH]; intros kept; cbn.
  - intros [= <-]. constructor.
  - destruct (make x) as [y|e]; cbn; [|discriminate].
    destruct (keep y) as [k|e] eqn:Ek; cbn; [|discriminate].
    destruct (filter_mapped make keep rest) as [kept'|e]; cbn; [|discriminate].
    intros [= <-]. destruct k; [constructor|]; auto.
Qed.

(** Filtering a list that passes the test returns it. *)
Lemma filter_mapped_all {B} (keep : B -> result bool) (l : list B) :
  Forall (fun y => keep y = Ok true) l -> filter_mapped Ok keep l = Ok l.
Proof.
  induction 1 as [|y l Hy Hl IH]; cbn; [reflexivity|].
  now rewrite Hy, IH.
Qed.

(** Over records, the only failure of the filter is a missing author. *)
Lemma filter_mapped_records (items : list json) (posts : list Post) :
  list_map Post_of items = Ok posts ->
  (forall e, filter_mapped Post_of not_luwei items = Err e ->
             e = KeyError "userid")
  /\ ((exists e, filter_mapped Post_of not_luwei items = Err e)
      <-> Exists (fun p => Dict.lookup "userid" (_raw p) = None) posts).
Proof.
  revert posts. induction items as [|x rest IH]; intros posts; cbn.
  - intros [= <-]. split; [discriminate|]. split.
    + intros (e & H). discriminate.
    + intros H. inversion H.
  - destruct (Post_of x) as [p|e]; cbn; [|discriminate].
    destruct (list_map Post_of rest) as [posts'|e]; cbn; [|discriminate].
    intros [= <-]. destruct (IH posts' eq_refl) as (IHe & IHx).
    unfold not_luwei at 1 3, user_id, Dict.getitem.
    destruct (Dict.lookup "userid" (_raw p)) as [uid|] eqn:Eu; cbn.
    + destruct (filter_mapped Post_of not_luwei rest) as [kept|e0]; cbn.
      * split; [discriminate|]. split.
        -- intros (e & H). discriminate.
        -- intros H. inversion H as [? ? Hp|? ? Hrest]; subst.
           ++ congruence.
           ++ apply IHx in Hrest. destruct Hrest as (e & He). discriminate.
      * split.
        -- intros e [= <-]. now apply IHe.
        -- split; [intros _ | eauto].
           apply Exists_cons_tl, IHx. eauto.
    + split.
      * now intros e [= <-].
      * split; [intros _ | eauto]. now apply Exists_cons_hd.
Qed.

Lemma others_all (posts : list Post) :
  Forall (fun p => by_luwei p = false) posts -> others posts = posts.
Proof.
  induction 1 as [|p l Hp Hl IH]; cbn; [reflexivity|].
  rewrite Hp. cbn. unfold others in IH. now rewrite IH.
Qed.

Section Facts.
Context {RequestOptions : Type} (self : BaseClient RequestOptions).

(** The fetch for analysis is the plain fetch and then the filter, also
    when the filter raises. *)
Lemma get_thread_page_then_filter id page options calls t usage calls' :
  get_thread_page self id page options false calls
  = (Ok (t, usage), calls') ->
  get_thread_page self id page options true calls
  = (match analysis_step true t with
     | Ok t' => Ok (t', usage)
     | Err e => Err e
     end, calls').
Proof.
  unfold get_thread_page.
  destruct (thread_page_requires_login self page options) as [needs_login|e];
    [|discriminate].
  destruct (needs_login && negb (has_cookie self options)); [discriminate|].
  destruct (Executor.try_request _ _ _ calls) as [fetched calls1].
  destruct fetched as [[t1 usage1]|e]; [|discriminate].
  cbn [analysis_step]. intros [= <- <- <-].
  destruct (try! kept := list_filter not_luwei (replies t1) in
            Ok (set_replies t1 kept)); reflexivity.
Qed.

End Facts.
End AnalysisMore.

(** X8.  A thread page whose record has no reply field cannot be fetched
    for analysis: where the plain fetch returns a Thread with no replies,
    the fetch for analysis makes the same calls and then raises
    [TypeError]. *)
Theorem X8_for_analysis_without_replies {RequestOptions : Type}
    (self : BaseClient RequestOptions) (options : RequestOptions)
    (id page : Z) (calls calls' : Net.log) (t : Objects.Thread)
    (usage : Net.BandwidthUsage) :
  Client.get_thread_page self id page options false calls
  = (Ok (t, usage), calls') ->
  Objects.replies t = Objects.NoReplies ->
  Client.get_thread_page self id page options true calls
  = (Err TypeError, calls').
Proof.
  intros Hplain Hnone.
  rewrite (AnalysisMore.get_thread_page_then_filter self _ _ _ _ _ _ _ Hplain).
  unfold Client.analysis_step, Objects.list_filter. rewrite Hnone.
  reflexivity.
Qed.

(** X8, over a remote end that serves a record with an id only. *)
Lemma X8_for_analysis_without_replies_witness :
  let self :=
    Sample.client
      (fun _ _ _ => Net.Returned (JDict [("id", JInt 7)]) Sample.usage_per_call)
      Sample.no_form_end in
  Client.get_thread_page self 7 1 Sample.defaults true []
  = (Err TypeError, [Net.GetJson "/Api/thread/id/7" false [("page", 1)]]).
Proof.
  intros self.
  apply (X8_for_analysis_without_replies self Sample.defaults 7 1 []
           [Net.GetJson "/Api/thread/id/7" false [("page", 1)]]
           (Objects.mkThread (Objects.mkPost [("id", JInt 7)])
              Objects.NoReplies)
           Sample.usage_per_call); reflexivity.
Defined.

(** X9.  The filter for analysis over a reply collection that is a list of
    records: it raises exactly when some reply has no ["userid"] field,
    and what it raises is [KeyError] for that field. *)
Theorem X9_for_analysis_missing_author (t : Objects.Thread)
    (items : list json) (posts : list Objects.Post) :
  Objects.replies t = Objects.MapOfPosts (JList items) ->
  Objects.list_map Objects.Post_of items = Ok posts ->
  (Client.analysis_step true t = Err (KeyError "userid")
   <-> Exists (fun p => Dict.lookup "userid" (Objects._raw p) = None) posts)
  /\ (forall e, Client.analysis_step true t = Err e -> e = KeyError "userid").
Proof.
  intros Hreplies Hposts.
  destruct (AnalysisMore.filter_mapped_records items posts Hposts)
    as (Honly & Hiff).
  unfold Client.analysis_step, Objects.list_filter. rewrite Hreplies. cbn.
  destruct (Objects.filter_mapped Objects.Post_of Client.not_luwei items)
    as [kept|e0] eqn:Ef; cbn.
  - split; [|discriminate]. split; [discriminate|].
    intros Hex. apply Hiff in Hex. destruct Hex as (e & He). discriminate.
  - pose proof (Honly e0 eq_refl) as ->. split.
    + split; [intros _ | reflexivity]. apply Hiff. eauto.
    + now intros e [= <-].
Qed.

(** X9, on two replies, the second without an author. *)
Lemma X9_for_analysis_missing_author_witness :
  let nameless := Objects.mkPost [("id", JInt 9)] in
  let t := Objects.mkThread (Objects.mkPost [])
             (Objects.MapOfPosts
                (JList [JDict (Objects._raw Sample.post_1);
                        JDict (Objects._raw nameless)])) in
  Client.analysis_step true t = Err (KeyError "userid").
Proof.
  intros nameless t.
  apply (X9_for_analysis_missing_author t
           [JDict (Objects._raw Sample.post_1); JDict (Objects._raw nameless)]
           [Sample.post_1; nameless] eq_refl eq_refl).
  apply Exists_cons_tl, Exists_cons_hd. reflexivity.
Defined.

(** X10.  When every reply of the page has an author and none is ["芦苇"],
    the filter for analysis keeps all of them, in their order: the Thread
    it returns has the same record and holds as its replies the list of
    all the reply Posts, where the lazy replies were. *)
Theorem X10_for_analysis_keeps_all (t : Objects.Thread) (source : json)
    (items : list json) (posts : list Objects.Post) :
  Objects.replies t = Objects.MapOfPosts source ->
  Iter.iter source = Ok items ->
  Objects.list_map Objects.Post_of items = Ok posts ->
  Forall (fun p => exists uid, Objects.user_id p = Ok uid
                               /\ uid <> JStr "芦苇") posts ->
  exists t',
    Client.analysis_step true t = Ok t'
    /\ Objects.replies t' = Objects.ListOfPosts posts
    /\ Objects.post t' = Objects.post t.
Proof.
  intros Hreplies Hiter Hposts Hall.
  exists (Objects.set_replies t posts).
  split; [|split; reflexivity].
  unfold Client.analysis_step, Objects.list_filter.
  rewrite Hreplies, Hiter. cbn.
  assert (Hkept : Objects.filter_mapped Objects.Post_of Client.not_luwei items
                  = Ok (Vocabulary.others posts)).
  { apply AnalysisFacts.filter_mapped_others. exists posts.
    repeat split; [exact Hposts|].
    revert Hall. apply List.Forall_impl.
    intros p (uid & Hu & _). now rewrite Hu. }
  rewrite Hkept. cbn. rewrite AnalysisMore.others_all; [reflexivity|].
  revert Hall. apply List.Forall_impl.
  intros p (uid & Hu & Hne). apply AnalysisFacts.by_luwei_false.
  rewrite Hu. congruence.
Qed.

(** X10, on a page with the first and the third sample reply. *)
Lemma X10_for_analysis_keeps_all_witness :
  let source := JList [JDict (Objects._raw Sample.post_1);
                       JDict (Objects._raw Sample.post_3)] in
  let t := Objects.mkThread (Objects.mkPost [("id", JInt 100)])
             (Objects.MapOfPosts source) in
  exists t',
    Client.analysis_step true t = Ok t'
    /\ Objects.replies t'
       = Objects.ListOfPosts [Sample.post_1; Sample.post_3]
    /\ Objects.post t' = Objects.mkPost [("id", JInt 100)].
Proof.
  intros source t.
  apply (X10_for_analysis_keeps_all t source
           [JDict (Objects._raw Sample.post_1);
            JDict (Objects._raw Sample.post_3)]
           [Sample.post_1; Sample.post_3] eq_refl eq_refl eq_refl).
  repeat constructor.
  - exists (JStr "AbCdEfG"). split; [reflexivity | discriminate].
  - exists (JStr "HiJkLmN"). split; [reflexivity | discriminate].
Defined.

(** X11.  Filtering for analysis twice is filtering once: applied to a
    Thread it has returned, the filter returns that Thread again. *)
Theorem X11_for_analysis_idempotent (t t' : Objects.Thread) :
  Client.analysis_step true t = Ok t' ->
  Client.analysis_step true t' = Ok t'.
Proof.
  unfold Client.analysis_step.
  destruct (Objects.list_filter Client.not_luwei (Objects.replies t))
    as [kept|e] eqn:Ef; cbn; [|discriminate].
  intros [= <-]. cbn.
  assert (Hkept : Forall (fun p => Client.not_luwei p = Ok true) kept).
  { unfold Objects.list_filter in Ef.
    destruct (Objects.replies t) as [|source|posts]; [discriminate| |].
    - destruct (Iter.iter source) as [items|e]; cbn in Ef; [|discriminate].
      exact (AnalysisMore.filter_mapped_kept _ _ _ _ Ef).
    - exact (AnalysisMore.filter_mapped_kept _ _ _ _ Ef). }
  rewrite (AnalysisMore.filter_mapped_all _ _ Hkept). reflexivity.
Qed.

(** X11, on the sample thread. *)
Lemma X11_for_analysis_idempotent_witness :
  Client.analysis_step true
    (Objects.set_replies Sample.thread [Sample.post_1; Sample.post_3])
  = Ok (Objects.set_replies Sample.thread [Sample.post_1; Sample.post_3]).
Proof.
  apply (X11_for_analysis_idempotent Sample.thread). reflexivity.
Defined.

(** ** More on the gatekeeper *)

Module GatekeeperMore.
Import Client Vocabulary.

Lemma is_login_policy_dec (p : string) :
  is_login_policy p \/ ~ is_login_policy p.
Proof.
  unfold is_login_policy.
  destruct (String.eqb_spec p "enforce"); [auto|].
  destruct (String.eqb_spec p "when_has_cookie"); [auto|].
  destruct (String.eqb_spec p "always_no"); [auto|].
  destruct (String.eqb_spec p "when_required"); [auto|].
  right. intros [H | [H | [H | H]]]; contradiction.
Qed.

Lemma gtb_mono (page page' gk gk' : Z) :
  page <= page' -> gk' <= gk -> (page >? gk) = true -> (page' >? gk') = true.
Proof.
  intros Hp Hg H.
  destruct (Z.gtb_spec page gk); [|discriminate].
  destruct (Z.gtb_spec page' gk'); [reflexivity | lia].
Qed.

End GatekeeperMore.

(** X12.  The login decision is monotone: if a page requires login, so
    does every later page, and so does the same page under a lower
    gatekeeper page. *)
Theorem X12_page_requires_login_monotone {RequestOptions : Type}
    (self : BaseClient RequestOptions) (options : RequestOptions)
    (page page' gate_keeper gate_keeper' : Z) :
  page <= page' ->
  gate_keeper' <= gate_keeper ->
  Client.page_requires_login self page gate_keeper options = Ok true ->
  Client.page_requires_login self page' gate_keeper' options = Ok true.
Proof.
  intros Hp Hg. unfold Client.page_requires_login.
  destruct (String.eqb (get_login_policy self options) "enforce");
    [reflexivity|].
  destruct (String.eqb (get_login_policy self options) "when_has_cookie").
  - intros [= H]. f_equal. apply orb_true_iff in H. apply orb_true_iff.
    destruct H as [H | H]; [now left | right].
    exact (GatekeeperMore.gtb_mono _ _ _ _ Hp Hg H).
  - destruct (String.eqb (get_login_policy self options) "always_no"
              || String.eqb (get_login_policy self options) "when_required");
      [|discriminate].
    intros [= H]. f_equal.
    exact (GatekeeperMore.gtb_mono _ _ _ _ Hp Hg H).
Qed.

(** X12, from page 101 to page 250 under the default policy. *)
Lemma X12_page_requires_login_monotone_witness :
  let self := Sample.client Sample.steady_json_end Sample.no_form_end in
  Client.page_requires_login self 250 100 Sample.defaults = Ok true.
Proof.
  intros self.
  apply (X12_page_requires_login_monotone self Sample.defaults 101 250
           100 100); [lia | lia | reflexivity].
Defined.

(** X13.  The login decision returns exactly under the four policies; under
    any other policy value it raises the unreachable-case exception, and
    it raises nothing else. *)
Theorem X13_page_requires_login_raises {RequestOptions : Type}
    (self : BaseClient RequestOptions) (options : RequestOptions)
    (page gate_keeper : Z) :
  (Vocabulary.is_login_policy (get_login_policy self options)
   <-> exists b,
         Client.page_requires_login self page gate_keeper options = Ok b)
  /\ (~ Vocabulary.is_login_policy (get_login_policy self options)
      <-> Client.page_requires_login self page gate_keeper options
          = Err ShouldNotReachException)
  /\ (forall e,
        Client.page_requires_login self page gate_keeper options = Err e ->
        e = ShouldNotReachException).
Proof.
  pose proof (GatekeeperFacts.page_requires_login_valid self page gate_keeper
                options) as Hvalid.
  pose proof (GatekeeperFacts.page_requires_login_invalid self page
                gate_keeper options) as Hinvalid.
  repeat apply conj.
  - intros Hp. rewrite (Hvalid Hp). eauto.
  - intros (b & Hb).
    destruct (GatekeeperMore.is_login_policy_dec
                (get_login_policy self options)) as [Hp | Hp]; [exact Hp|].
    rewrite (Hinvalid Hp) in Hb. discriminate.
  - exact Hinvalid.
  - intros Herr Hp. rewrite (Hvalid Hp) in Herr. discriminate.
  - intros e. apply GatekeeperFacts.page_requires_login_err.
Qed.

(** X13, on the policy value ["never"]. *)
Lemma X13_page_requires_login_raises_witness :
  let self := Sample.client Sample.steady_json_end Sample.no_form_end in
  let opts := Sample.mkOptions (Some "never") true None None None in
  Client.page_requires_login self 1 100 opts = Err ShouldNotReachException
  /\ exists b, Client.page_requires_login self 1 100 Sample.defaults = Ok b.
Proof.
  intros self opts.
  destruct (X13_page_requires_login_raises self opts 1 100)
    as (_ & Hraises & _).
  destruct (X13_page_requires_login_raises self Sample.defaults 1 100)
    as (Hreturns & _).
  split.
  - apply Hraises. intros [H | [H | [H | H]]]; discriminate H.
  - apply Hreturns. right; right; right. reflexivity.
Defined.

(** X14.  For a board the page never decides: whenever the board decision
    returns, the page is at most the board gatekeeper page and the answer
    is the policy's alone, true under ["enforce"] and under
    ["when_has_cookie"] with a credential, false otherwise; every other
    page up to the gatekeeper page gets the same answer. *)
Theorem X14_board_decision_ignores_page {RequestOptions : Type}
    (self : BaseClient RequestOptions) (options : RequestOptions)
    (page : Z) (b : bool) :
  Client.board_page_requires_login self page options = Ok b ->
  page <= Client.get_board_gatekeeper_page_number self options
  /\ b = (String.eqb (get_login_policy self options) "enforce"
          || (String.eqb (get_login_policy self options) "when_has_cookie"
              && has_cookie self options))
  /\ (forall page',
        page' <= Client.get_board_gatekeeper_page_number self options ->
        Client.board_page_requires_login self page' options = Ok b).
Proof.
  unfold Client.board_page_requires_login.
  destruct (Z.gtb_spec page
              (Client.get_board_gatekeeper_page_number self options))
    as [Hgt | Hle]; [discriminate|].
  intros Hb.
  assert (Hvalue :
    b = (String.eqb (get_login_policy self options) "enforce"
         || (String.eqb (get_login_policy self options) "when_has_cookie"
             && has_cookie self options))).
  { revert Hb. unfold Client.page_requires_login.
    destruct (Z.gtb_spec page
                (Client.get_board_gatekeeper_page_number self options));
      [lia|].
    destruct (String.eqb (get_login_policy self options) "enforce");
      [now intros [= <-]|].
    destruct (String.eqb (get_login_policy self options) "when_has_cookie").
    - intros [= <-]. cbn. now rewrite orb_false_r.
    - destruct (String.eqb (get_login_policy self options) "always_no"
                || String.eqb (get_login_policy self options) "when_required");
        [now intros [= <-] | discriminate]. }
  repeat apply conj; [exact Hle | exact Hvalue|].
  intros page' Hle'.
  destruct (Z.gtb_spec page'
              (Client.get_board_gatekeeper_page_number self options));
    [lia|].
  revert Hb. unfold Client.page_requires_login.
  destruct (Z.gtb_spec page
              (Client.get_board_gatekeeper_page_number self options)); [lia|].
  destruct (Z.gtb_spec page'
              (Client.get_board_gatekeeper_page_number self options)); [lia|].
  trivial.
Qed.

(** X14, at pages 100 and 1 of a board under the default policy. *)
Lemma X14_board_decision_ignores_page_witness :
  let self := Sample.client Sample.steady_json_end Sample.no_form_end in
  Client.board_page_requires_login self 1 Sample.defaults = Ok false.
Proof.
  intros self.
  destruct (X14_board_decision_ignores_page self Sample.defaults 100 false
              eq_refl) as (_ & _ & Hsame).
  apply Hsame. cbn. lia.
Defined.

(** X15.  Beyond the thread gatekeeper page every one of the four policies
    requires login, so that without a credential a thread fetch there
    fails with Login Required and makes no call. *)
Theorem X15_thread_beyond_gatekeeper {RequestOptions : Type}
    (self : BaseClient RequestOptions) (options : RequestOptions)
    (id page : Z) (for_analysis : bool) (calls : Net.log) :
  Vocabulary.is_login_policy (get_login_policy self options) ->
  page > Client.get_thread_gatekeeper_page_number self options ->
  Client.thread_page_requires_login self page options = Ok true
  /\ (has_cookie self options = false ->
      Client.get_thread_page self id page options for_analysis calls
      = (Err RequiresLoginException, calls)).
Proof.
  intros Hpolicy Hpage.
  assert (Hneeds : Client.thread_page_requires_login self page options
                   = Ok true).
  { unfold Client.thread_page_requires_login.
    rewrite (GatekeeperFacts.page_requires_login_valid self _ _ _ Hpolicy).
    destruct (Z.gtb_spec page
                (Client.get_thread_gatekeeper_page_number self options));
      [|lia].
    now rewrite orb_true_r. }
  split; [exact Hneeds|].
  intros Hcookie. unfold Client.get_thread_page.
  rewrite Hneeds, Hcookie. reflexivity.
Qed.

(** X15, at page 101 of a thread with no credential. *)
Lemma X15_thread_beyond_gatekeeper_witness :
  let self := Sample.client Sample.steady_json_end Sample.no_form_end in
  Client.get_thread_page self 100 101 Sample.defaults false []
  = (Err RequiresLoginException, []).
Proof.
  intros self.
  destruct (X15_thread_beyond_gatekeeper self Sample.defaults 100 101 false [])
    as (_ & Hfails).
  - right; right; right. reflexivity.
  - cbn. lia.
  - apply Hfails. reflexivity.
Defined.

(** X16.  A board fetch up to the board gatekeeper page stops before any
    call in two cases: under ["enforce"] with no credential it fails with
    Login Required, and under a policy value outside the four it raises
    the unreachable-case exception.  A thread fetch under such a value
    raises it at every page. *)
Theorem X16_fetch_stops_before_network {RequestOptions : Type}
    (self : BaseClient RequestOptions) (options : RequestOptions)
    (id page : Z) (for_analysis : bool) (calls : Net.log) :
  (page <= Client.get_board_gatekeeper_page_number self options ->
   get_login_policy self options = "enforce" ->
   has_cookie self options = false ->
   Client.get_board_page self id page options calls
   = (Err RequiresLoginException, calls))
  /\ (page <= Client.get_board_gatekeeper_page_number self options ->
      ~ Vocabulary.is_login_policy (get_login_policy self options) ->
      Client.get_board_page self id page options calls
      = (Err ShouldNotReachException, calls))
  /\ (~ Vocabulary.is_login_policy (get_login_policy self options) ->
      Client.get_thread_page self id page options for_analysis calls
      = (Err ShouldNotReachException, calls)).
Proof.
  repeat apply conj.
  - intros Hpage Hpolicy Hcookie.
    unfold Client.get_board_page, Client.board_page_requires_login,
      Client.page_requires_login.
    destruct (Z.gtb_spec page
                (Client.get_board_gatekeeper_page_number self options));
      [lia|].
    rewrite Hpolicy, Hcookie. reflexivity.
  - intros Hpage Hpolicy.
    unfold Client.get_board_page, Client.board_page_requires_login.
    destruct (Z.gtb_spec page
                (Client.get_board_gatekeeper_page_number self options));
      [lia|].
    now rewrite (GatekeeperFacts.page_requires_login_invalid self _ _ _
                   Hpolicy).
  - intros Hpolicy.
    unfold Client.get_thread_page, Client.thread_page_requires_login.
    now rewrite (GatekeeperFacts.page_requires_login_invalid self _ _ _
                   Hpolicy).
Qed.

(** X16, on a board under ["enforce"] and on the policy value ["never"]. *)
Lemma X16_fetch_stops_before_network_witness :
  let self := Sample.client Sample.steady_json_end Sample.no_form_end in
  let enforce := Sample.mkOptions (Some "enforce") false None None None in
  let never := Sample.mkOptions (Some "never") true None None None in
  Client.get_board_page self 4 1 enforce [] = (Err RequiresLoginException, [])
  /\ Client.get_board_page self 4 1 never []
     = (Err ShouldNotReachException, [])
  /\ Client.get_thread_page self 100 1 never true []
     = (Err ShouldNotReachException, []).
Proof.
  intros self enforce never.
  destruct (X16_fetch_stops_before_network self enforce 4 1 true [])
    as (Hlogin & _).
  destruct (X16_fetch_stops_before_network self never 4 1 true [])
    as (_ & Hboard & _).
  destruct (X16_fetch_stops_before_network self never 100 1 true [])
    as (_ & _ & Hthread).
  assert (Hnever : ~ Vocabulary.is_login_policy (get_login_policy self never)).
  { intros [H | [H | [H | H]]]; discriminate H. }
  repeat apply conj.
  - apply Hlogin; [cbn; lia | reflexivity | reflexivity].
  - apply Hboard; [cbn; lia | exact Hnever].
  - apply Hthread. exact Hnever.
Defined.

(** X17.  The reply interpreter reports success exactly when the first
    system-message container of the document holds a success marker: a
    success marker wins over an error marker in the same container, and a
    success marker that is not below the first container does not count. *)
Theorem X17_reply_success_iff (resp_text : string) (doc : Html.node) :
  Reply.interpret resp_text doc = Ok tt
  <-> exists container,
        Html.find "div" "system-message" doc = Some container
        /\ Vocabulary.holds "p" "success" container.
Proof.
  unfold Reply.interpret.
  destruct (Html.find "div" "system-message" doc) as [container|].
  - destruct (Html.find_all "p" "success" container) as [|s rest] eqn:Es.
    + split.
      * destruct (Html.find_all "p" "error" container); discriminate.
      * intros (c & [= <-] & Hc).
        apply HtmlFacts.holds_find_all in Hc. congruence.
    + split; [|reflexivity]. intros _. exists container.
      split; [reflexivity|]. apply HtmlFacts.holds_find_all. congruence.
  - split; [discriminate | intros (c & H & _); discriminate].
Qed.

(** X17, on a container with both markers and on a success marker outside
    the container. *)
Lemma X17_reply_success_iff_witness :
  let both :=
    Html.Tag "[document]" []
      [Html.Tag "div" ["system-message"]
         [Html.Tag "p" ["error"] [Html.Text "no"];
          Html.Tag "p" ["success"] [Html.Text "yes"]]] in
  let outside :=
    Html.Tag "[document]" []
      [Html.Tag "div" ["system-message"] [];
       Html.Tag "p" ["success"] [Html.Text "yes"]] in
  Reply.interpret "body" both = Ok tt
  /\ Reply.interpret "body" outside <> Ok tt.
Proof.
  intros both outside. split.
  - apply (X17_reply_success_iff "body" both).
    exists (Html.Tag "div" ["system-message"]
              [Html.Tag "p" ["error"] [Html.Text "no"];
               Html.Tag "p" ["success"] [Html.Text "yes"]]).
    split; [reflexivity|].
    apply HtmlFacts.holds_find_all. discriminate.
  - intros Hok. apply (X17_reply_success_iff "body" outside) in Hok.
    destruct Hok as (c & Hfind & Hc).
    cbv in Hfind. injection Hfind as Hsame. subst c.
    apply HtmlFacts.holds_find_all in Hc. apply Hc. reflexivity.
Defined.

(** X18.  The reply interpreter raises one of two things only: Unknown
    Response carrying the body it was given, or Reply Rejected carrying
    the text of the first error marker of the container and a detail that
    is never the empty string. *)
Theorem X18_reply_failures (resp_text : string) (doc : Html.node) (e : exn) :
  Reply.interpret resp_text doc = Err e ->
  e = UnknownResponseException resp_text
  \/ exists container error_div raw_detail,
       Html.find "div" "system-message" doc = Some container
       /\ Html.find "p" "error" container = Some error_div
       /\ e = ReplyException (Html.text error_div) raw_detail
       /\ raw_detail <> Some "".
Proof.
  unfold Reply.interpret.
  destruct (Html.find "div" "system-message" doc) as [container|];
    [|intros [= <-]; now left].
  destruct (Html.find_all "p" "success" container); [|discriminate].
  destruct (Html.find_all "p" "error" container) as [|error_div rest]
    eqn:Eerror; [intros [= <-]; now left|].
  intros [= <-]. right. exists container, error_div.
  unfold Html.find. rewrite Eerror.
  destruct (Html.find_all "p" "detail" container) as [|detail_div rest'].
  - exists None. repeat apply conj; try reflexivity. discriminate.
  - destruct (String.eqb_spec (Html.text detail_div) "") as [Hd|Hd].
    + exists None. repeat apply conj; try reflexivity. discriminate.
    + exists (Some (Html.text detail_div)).
      repeat apply conj; try reflexivity. congruence.
Qed.

(** X18, on the error fixture. *)
Lemma X18_reply_failures_witness :
  ReplyException "没有选定回复的帖子" None = UnknownResponseException "body"
  \/ exists container error_div raw_detail,
       Html.find "div" "system-message" Sample.error_doc = Some container
       /\ Html.find "p" "error" container = Some error_div
       /\ ReplyException "没有选定回复的帖子" None
          = ReplyException (Html.text error_div) raw_detail
       /\ raw_detail <> Some "".
Proof.
  apply (X18_reply_failures "body" Sample.error_doc). reflexivity.
Defined.

(** X19.  [reply_thread] checks the status before it reads the body: an
    answer with a status from 400 to 599 raises the HTTP failure whatever
    its body says, a success marker included, and an answer with any other
    status is interpreted.  Either way the one call was made. *)
Theorem X19_reply_status_first {RequestOptions : Type}
    (self : BaseClient RequestOptions) (BeautifulSoup : string -> Html.node)
    (content : string) (to_thread_id : Z) (name email title : option string)
    (options : RequestOptions) (calls : Net.log) (resp : Net.response) :
  _make_session self options true = Ok tt ->
  form_endpoint self options calls
    (Reply.reply_call self content to_thread_id name email title) = Ok resp ->
  (400 <= Net.status_code resp < 600 ->
     Reply.reply_thread self BeautifulSoup content to_thread_id name email
       title options calls
     = (Err (TransientError "HTTPError"),
        (calls ++ [Reply.reply_call self content to_thread_id name email
                     title])%list))
  /\ (Net.status_code resp < 400 \/ 600 <= Net.status_code resp ->
      Reply.reply_thread self BeautifulSoup content to_thread_id name email
        title options calls
      = (Reply.interpret (Net.text resp) (BeautifulSoup (Net.text resp)),
         (calls ++ [Reply.reply_call self content to_thread_id name email
                      title])%list)).
Proof.
  intros Hsession Hanswer. unfold Reply.reply_thread, Net.raise_for_status.
  rewrite Hsession, Hanswer. split; intros Hstatus.
  - destruct (Z.leb_spec 400 (Net.status_code resp)); [|lia].
    destruct (Z.ltb_spec (Net.status_code resp) 600); [|lia].
    reflexivity.
  - destruct (Z.leb_spec 400 (Net.status_code resp));
      destruct (Z.ltb_spec (Net.status_code resp) 600);
      try reflexivity; lia.
Qed.

(** X19, with a credential, on an answer whose body is the success page,
    with status 503 and with status 200. *)
Lemma X19_reply_status_first_witness :
  let down _ _ _ := Ok (Net.mkResponse 503 Sample.success_page) in
  let up _ _ _ := Ok (Net.mkResponse 200 Sample.success_page) in
  fst (Reply.reply_thread (Sample.client Sample.steady_json_end down)
         Sample.parse "hello" 100 None None None Sample.with_cookie [])
  = Err (TransientError "HTTPError")
  /\ fst (Reply.reply_thread (Sample.client Sample.steady_json_end up)
            Sample.parse "hello" 100 None None None Sample.with_cookie [])
     = Ok tt.
Proof.
  intros down up.
  destruct (X19_reply_status_first
              (Sample.client Sample.steady_json_end down) Sample.parse
              "hello" 100 None None None Sample.with_cookie []
              (Net.mkResponse 503 Sample.success_page) eq_refl eq_refl)
    as (Hdown & _).
  destruct (X19_reply_status_first
              (Sample.client Sample.steady_json_end up) Sample.parse
              "hello" 100 None None None Sample.with_cookie []
              (Net.mkResponse 200 Sample.success_page) eq_refl eq_refl)
    as (_ & Hup).
  split.
  - rewrite Hdown; [reflexivity | cbn; lia].
  - rewrite Hup; [reflexivity | cbn; lia].
Defined.
